(** * notebook_to_html_report: the [Report] pipeline

    A shallow embedding of [notebook_to_html_report/__init__.py]:
    the kernel resolver [kernel], the constructor of [Report] with its
    path and title derivation, and the three methods [execute_notebook],
    [notebook_to_report] and [clean_html].

    Python [str] values are [string]s, file contents are lists of bytes
    and the file system is a finite map from path strings to contents.
    A method is a function of the world that ends with a value or with
    a raised exception.  The libraries the module delegates to
    (jupyter_client, nbformat, nbconvert, BeautifulSoup and the text
    codecs) are the fields of the class [Libraries]; the tree that
    BeautifulSoup builds, and what [findAll], [decompose] and
    [replaceWithChildren] do to it, are modelled here. *)

From Stdlib Require Import Ascii String List Permutation.
From stdpp Require Import base option list gmap strings.

Set Default Proof Using "Type".

(** ** Python string methods used by the module *)

Module PyStr.

Definition nl : ascii := "010"%char.
Definition cr : ascii := "013"%char.
Definition slash : ascii := "/"%char.

(** [s.replace(old, new)] for a non-empty [old], as at every call site
    of the module: the occurrences of [old] are replaced from left to
    right, without overlap.  [skip] counts the characters of the
    occurrence being replaced that are still to be dropped. *)
Fixpoint replace_from (skip : nat) (old new s : string) : string :=
  match s with
  | EmptyString => EmptyString
  | String c s' =>
      match skip with
      | S k => replace_from k old new s'
      | O =>
          if String.prefix old s
          then new +:+ replace_from (String.length old - 1) old new s'
          else String c (replace_from 0 old new s')
      end
  end.

Definition replace (old new s : string) : string := replace_from 0 old new s.

(** [s.split(sep)] for a one-character separator: never the empty list. *)
Fixpoint split (sep : ascii) (s : string) : list string :=
  match s with
  | EmptyString => [EmptyString]
  | String c s' =>
      if Ascii.eqb c sep then EmptyString :: split sep s'
      else match split sep s' with
           | l :: ls => String c l :: ls
           | [] => [String c EmptyString]
           end
  end.

(** [sep.join(l)] *)
Definition join (sep : string) (l : list string) : string := String.concat sep l.

(** Truth value of a string: [if s]. *)
Definition truthy (s : string) : bool :=
  match s with EmptyString => false | String _ _ => true end.

(** [pat in s]: [pat] occurs in [s]. *)
Fixpoint contains (pat s : string) : bool :=
  String.prefix pat s
  || match s with
     | String _ s' => contains pat s'
     | EmptyString => false
     end.

(** The character [a] is one of the characters of [s]. *)
Fixpoint has_char (a : ascii) (s : string) : bool :=
  match s with
  | String c s' => Ascii.eqb c a || has_char a s'
  | EmptyString => false
  end.

(** "Every underscore replaced by a space", read character by
    character; the constructor itself calls [replace]. *)
Fixpoint underscores_to_spaces (s : string) : string :=
  match s with
  | String c s' =>
      String (if Ascii.eqb c "_" then " "%char else c) (underscores_to_spaces s')
  | EmptyString => EmptyString
  end.

(** [s.lstrip("/")] *)
Fixpoint lstrip (ch : ascii) (s : string) : string :=
  match s with
  | String c s' => if Ascii.eqb c ch then lstrip ch s' else s
  | EmptyString => EmptyString
  end.

(** What reading a file opened in text mode with the default
    [newline=None] makes of the decoded text: a carriage return followed
    by a line feed, and a carriage return alone, become a line feed. *)
Fixpoint universal_newlines (s : string) : string :=
  match s with
  | EmptyString => EmptyString
  | String c s' =>
      if Ascii.eqb c cr then
        String nl match s' with
                  | String c' s'' =>
                      if Ascii.eqb c' nl then universal_newlines s''
                      else universal_newlines s'
                  | EmptyString => EmptyString
                  end
      else String c (universal_newlines s')
  end.



End PyStr.

(** ** [pathlib] on a POSIX host, as far as the module uses it *)

Module PurePath.

(** A parsed path: its root ([""], ["/"] or ["//"]) and its components. *)
Record t := mk { root : string; parts : list string }.

(** [splitroot(part)]: the root and the rest; exactly two leading
    slashes are kept as a root of their own. *)
Definition splitroot (part : string) : string * string :=
  if String.prefix "/" part then
    let stripped_part := PyStr.lstrip PyStr.slash part in
    if Nat.eqb (String.length part - String.length stripped_part) 2
    then ("//", stripped_part)
    else ("/", stripped_part)
  else ("", part).

(** The components kept: not the empty ones, nor ["."]. *)
Definition keep_part (x : string) : bool :=
  PyStr.truthy x && negb (String.eqb x ".").

(** [Path(s)]: the root, and the components between the slashes. *)
Definition of_string (s : string) : t :=
  let '(r, rel) := splitroot s in
  mk r (List.filter keep_part (PyStr.split PyStr.slash rel)).

(** [p.name] *)
Definition name (p : t) : string := List.last (parts p) "".

(** [p.parent] *)
Definition parent (p : t) : t := mk (root p) (List.removelast (parts p)).

(** [p / q] *)
Definition joinpath (p q : t) : t :=
  if PyStr.truthy (root q) then q else mk (root p) (parts p ++ parts q).

(** [str(p)] *)
Definition to_string (p : t) : string :=
  match root p, parts p with
  | EmptyString, [] => "."
  | r, ps => r +:+ PyStr.join "/" ps
  end.

End PurePath.

(** ** The kernel resolver *)

(** [kernel(required_kernel)]; the dictionary returned by
    [jupyter_client.kernelspec.find_kernel_specs()] (kernel name to
    resource directory) is the argument [specs], and [available_kernels]
    are its keys. *)
Definition kernel (specs : gmap string string) (required_kernel : string) : string :=
  let available_kernels := dom specs in
  if decide (required_kernel ∈ available_kernels) then required_kernel
  else "python3".

(** ** The [Report] object *)

Record Report := mkReport {
  notebook_path : string;
  notebook_folder : string;
  notebook : string;
  temporary_notebook : PurePath.t;
  report_path : PurePath.t;
  title : string
}.

(** [Report.__init__(self, notebook_path, report_folder)] *)
Definition Report_init (notebook_path report_folder : string) : Report :=
  let path := PurePath.of_string notebook_path in
  {| notebook_path := notebook_path;
     notebook_folder := PurePath.to_string (PurePath.parent path);
     notebook := PurePath.name path;
     temporary_notebook :=
       PurePath.joinpath (PurePath.of_string "/tmp")
                         (PurePath.of_string (PurePath.name path));
     report_path :=
       PurePath.joinpath (PurePath.of_string report_folder)
                         (PurePath.of_string
                            (PyStr.replace "ipynb" "html" (PurePath.name path)));
     title := PyStr.replace "_" " " (PyStr.replace ".ipynb" "" (PurePath.name path)) |}.

(** ** The HTML tree of BeautifulSoup and the three cleaning passes *)

Module Soup.

(** The value of an attribute: a string, or a list of strings for a
    multi-valued attribute such as [class]. *)
Inductive attr_value :=
| AStr (s : string)
| AList (l : list string).

(** [tag.attrs] as the parser builds it. *)
Abbreviation dict := (gmap string attr_value).

(** A node of the tree: a [NavigableString] or a [Tag].  The type [A] of
    [tag.attrs] is [dict] in a tree the parser built and [option dict]
    once [clean_html] has assigned [None] to some of them. *)
#[local] Unset Elimination Schemes.
Inductive node (A : Type) :=
| NavigableString (s : string)
| Tag (name : string) (attrs : A) (contents : list (node A)).
#[local] Set Elimination Schemes.

Arguments NavigableString {A} s.
Arguments Tag {A} name attrs contents.

(** The [BeautifulSoup] object: the list of the top-level nodes. *)
Abbreviation soup A := (list (node A)).

(** How a search value is compared with an attribute value: any item of
    a multi-valued attribute, or the items joined by a space. *)
Definition matches_value (v : attr_value) (match_against : string) : bool :=
  match v with
  | AStr s => String.eqb s match_against
  | AList l =>
      existsb (fun item => String.eqb item match_against) l
      || String.eqb (PyStr.join " " l) match_against
  end.

(** A tag selected by [findAll("div", {"class": c})]. *)
Definition div_with_class (c : string) (name : string) (attrs : dict) : bool :=
  String.eqb name "div"
  && match attrs !! "class" with
     | Some v => matches_value v c
     | None => false
     end.

(** [for div in soup.findAll("div", {"class": c}): div.decompose()],
    as the tree the loop leaves: each selected [div] has gone with all
    that was in it.  The loop itself is [InPlace.decompose_loop]. *)
Fixpoint decompose_node (c : string) (n : node dict) : soup dict :=
  match n with
  | NavigableString s => [NavigableString s]
  | Tag name attrs contents =>
      if div_with_class c name attrs then []
      else [Tag name attrs (flat_map (decompose_node c) contents)]
  end.

Definition decompose_class (c : string) (t : soup dict) : soup dict :=
  flat_map (decompose_node c) t.

(** [for tag in soup.findAll("div", {"class": c}): tag.replaceWithChildren()],
    as the tree the loop leaves: each selected [div] has given its place
    to its children, the selected ones among them unwrapped in turn.  The
    loop itself is [InPlace.unwrap_loop]. *)
Fixpoint unwrap_node (c : string) (n : node dict) : soup dict :=
  match n with
  | NavigableString s => [NavigableString s]
  | Tag name attrs contents =>
      if div_with_class c name attrs then flat_map (unwrap_node c) contents
      else [Tag name attrs (flat_map (unwrap_node c) contents)]
  end.

Definition unwrap_class (c : string) (t : soup dict) : soup dict :=
  flat_map (unwrap_node c) t.

Definition classes_to_remove : list string := ["output_text"; "prompt"].

Definition classes_to_replace : list string :=
  [ "border-box-sizing"; "container"; "cell"; "inner_cell"; "rendered_html";
    "output_prompt"; "output_wrapper"; "output"; "output_area" ].

(** The loop over a list of class names, each pass on the tree the
    passes before it have left. *)
Definition decompose_classes (cs : list string) (t : soup dict) : soup dict :=
  fold_left (fun t c => decompose_class c t) cs t.

Definition unwrap_classes (cs : list string) (t : soup dict) : soup dict :=
  fold_left (fun t c => unwrap_class c t) cs t.

(** [if "id" not in tag.attrs.keys(): tag.attrs = None], on a table. *)
Definition table_attrs (attrs : dict) : option dict :=
  if decide (is_Some (attrs !! "id")) then Some attrs else None.

(** [for tag in soup.findAll("table"): ...] *)
Fixpoint strip_table (n : node dict) : node (option dict) :=
  match n with
  | NavigableString s => NavigableString s
  | Tag name attrs contents =>
      Tag name
          (if String.eqb name "table" then table_attrs attrs else Some attrs)
          (map strip_table contents)
  end.

(** The tree part of [clean_html], lines 132 to 156. *)
Definition clean_tree (t : soup dict) : soup (option dict) :=
  map strip_table (unwrap_classes classes_to_replace (decompose_classes classes_to_remove t)).

(** The tags of a tree in document order, each with its attributes. *)
Fixpoint tags_of {A} (n : node A) : list (string * A) :=
  match n with
  | NavigableString _ => []
  | Tag name attrs contents => (name, attrs) :: flat_map tags_of contents
  end.

Definition all_tags {A} (t : soup A) : list (string * A) := flat_map tags_of t.

(** What the table pass makes of the attributes of a tag. *)
Definition strip_attrs (na : string * dict) : string * option dict :=
  (na.1, if String.eqb na.1 "table" then table_attrs na.2 else Some na.2).

(** The tag is not selected by [findAll("div", {"class": c})]. *)
Definition unselected (c : string) (na : string * dict) : Prop :=
  div_with_class c na.1 na.2 = false.




(** The class names the cleaner looks for. *)
Definition targeted_classes : list string := classes_to_remove ++ classes_to_replace.




(** A tag whose [attrs] is [None] prints like one whose [attrs] is the
    empty dictionary, and is read back as such. *)
Definition erase_attrs (attrs : option dict) : dict := default ∅ attrs.

Definition reread_tag (na : string * option dict) : string * dict :=
  (na.1, erase_attrs na.2).

Fixpoint erase (n : node (option dict)) : node dict :=
  match n with
  | NavigableString s => NavigableString s
  | Tag name attrs contents => Tag name (erase_attrs attrs) (map erase contents)
  end.

(** A [table] of a tree that has been cleaned, printed and read again:
    it has an [id], or no attribute. *)
Definition settled (na : string * dict) : Prop :=
  na.1 = "table" -> is_Some (na.2 !! "id") \/ na.2 = ∅.

(** A tree of the parser, none of its [attrs] assigned yet. *)
Fixpoint as_parsed (n : node dict) : node (option dict) :=
  match n with
  | NavigableString s => NavigableString s
  | Tag name attrs contents => Tag name (Some attrs) (map as_parsed contents)
  end.

End Soup.

(** ** The loops of [clean_html] on tag objects

    The two loops change the tree in place, tag after tag, over a list of
    tags computed beforehand.  Here each tag has an identity, and the
    loops are run as written; [InPlaceFacts.clean_loops_forget] shows that
    they leave the tree [Soup.clean_tree] is defined to compute. *)

Module InPlace.
Import Soup.

(** A tag object: its identity and its [attrs]. *)
Abbreviation obj := (nat * dict)%type.

(** [soup.findAll("div", {"class": c})]: the selected tags, in document
    order, as the list the loop then runs over. *)
Fixpoint find_all_node (c : string) (n : node obj) : list nat :=
  match n with
  | NavigableString _ => []
  | Tag name (i, attrs) contents =>
      (if div_with_class c name attrs then [i] else [])
      ++ flat_map (find_all_node c) contents
  end.

Definition find_all (c : string) (t : soup obj) : list nat :=
  flat_map (find_all_node c) t.

(** [tag.decompose()] for the tag [i]: it leaves the tree with all that
    is in it; nothing happens when it has left the tree already. *)
Fixpoint decompose_at (i : nat) (n : node obj) : soup obj :=
  match n with
  | NavigableString s => [NavigableString s]
  | Tag name (j, attrs) contents =>
      if Nat.eqb j i then []
      else [Tag name (j, attrs) (flat_map (decompose_at i) contents)]
  end.

(** [tag.replaceWithChildren()] for the tag [i]: its children take its
    place in its parent. *)
Fixpoint unwrap_at (i : nat) (n : node obj) : soup obj :=
  match n with
  | NavigableString s => [NavigableString s]
  | Tag name (j, attrs) contents =>
      if Nat.eqb j i then contents
      else [Tag name (j, attrs) (flat_map (unwrap_at i) contents)]
  end.

(** The two loops of [clean_html] for one class name: the list of tags
    is computed first, then the tree is changed tag after tag. *)
Definition decompose_loop (c : string) (t : soup obj) : soup obj :=
  fold_left (fun t i => flat_map (decompose_at i) t) (find_all c t) t.

Definition unwrap_loop (c : string) (t : soup obj) : soup obj :=
  fold_left (fun t i => flat_map (unwrap_at i) t) (find_all c t) t.

(** The tree without the identities. *)
Fixpoint forget (n : node obj) : node dict :=
  match n with
  | NavigableString s => NavigableString s
  | Tag name (_, attrs) contents => Tag name attrs (map forget contents)
  end.

(** The identities of the tags of a tree. *)
Definition ids (t : soup obj) : list nat := map (fun na => na.2.1) (all_tags t).


Fixpoint unwrap_set (S : list nat) (n : node obj) : soup obj :=
  match n with
  | NavigableString s => [NavigableString s]
  | Tag name (j, attrs) contents =>
      if bool_decide (j ∈ S) then flat_map (unwrap_set S) contents
      else [Tag name (j, attrs) (flat_map (unwrap_set S) contents)]
  end.


Definition unwrap_loops (cs : list string) (t : soup obj) : soup obj :=
  fold_left (fun t c => unwrap_loop c t) cs t.

(** [S] holds the identities of the tags the search selects. *)
Definition found (c : string) (S : list nat) (na : string * obj) : Prop :=
  na.2.1 ∈ S <-> div_with_class c na.1 na.2.2 = true.

End InPlace.

(** ** The tree passes as one traversal

    What the passes of [clean_html] are compared with further down: one
    traversal for a list of class names, one for the whole cleaning, and
    the strings and the tags other than [div] that a tree holds. *)

Module OnePass.
Import Soup.

(** A [div] that one of the class names [cs] selects. *)
Definition selected_by (cs : list string) (name : string) (attrs : dict) : bool :=
  existsb (fun c => div_with_class c name attrs) cs.

(** One traversal that deletes every [div] a name of [cs] selects. *)
Fixpoint decompose_any (cs : list string) (n : node dict) : soup dict :=
  match n with
  | NavigableString s => [NavigableString s]
  | Tag name attrs contents =>
      if selected_by cs name attrs then []
      else [Tag name attrs (flat_map (decompose_any cs) contents)]
  end.

(** One traversal that unwraps every [div] a name of [cs] selects. *)
Fixpoint unwrap_any (cs : list string) (n : node dict) : soup dict :=
  match n with
  | NavigableString s => [NavigableString s]
  | Tag name attrs contents =>
      if selected_by cs name attrs then flat_map (unwrap_any cs) contents
      else [Tag name attrs (flat_map (unwrap_any cs) contents)]
  end.

(** One traversal for the whole of the tree part of [clean_html]: a
    [div] with a class to remove goes, a [div] with a class to replace
    gives its place to its cleaned children, any other tag stays, a
    [table] without [id] losing its attributes. *)
Fixpoint clean_node (n : node dict) : soup (option dict) :=
  match n with
  | NavigableString s => [NavigableString s]
  | Tag name attrs contents =>
      if selected_by classes_to_remove name attrs then []
      else if selected_by classes_to_replace name attrs
           then flat_map clean_node contents
           else [Tag name
                     (if String.eqb name "table" then table_attrs attrs else Some attrs)
                     (flat_map clean_node contents)]
  end.

(** The strings of a tree, in document order. *)
Fixpoint strings_of {A} (n : node A) : list string :=
  match n with
  | NavigableString s => [s]
  | Tag _ _ contents => flat_map strings_of contents
  end.

Definition strings {A} (t : soup A) : list string := flat_map strings_of t.

(** The tags of a tree that are not [div]s. *)
Definition other_tags {A} (t : soup A) : list (string * A) :=
  filter (fun na => na.1 <> "div") (all_tags t).

End OnePass.

(** [light_html = "\n".join([s for s in html.split("\n") if s])] *)
Definition drop_blank_lines (html : string) : string :=
  PyStr.join (String PyStr.nl EmptyString)
             (List.filter PyStr.truthy (PyStr.split PyStr.nl html)).


(** ** Exceptions, the file system and the calls into the libraries *)

Inductive exn :=
| FileNotFoundError (path : string)
| KeyError (key : string)
| UnicodeError (encoding : string)
| LibraryError (origin message : string).

Abbreviation bytes := (list Byte.byte).

(** A text encoding: [str.encode] and [bytes.decode], either of which
    may raise. *)
Record codec := mkCodec {
  encode : string -> exn + bytes;
  decode : bytes -> exn + string
}.

(** [f.read()] on a file opened for reading in text mode with an
    encoding, as [open], [io.open] and [Path.open] open it: the bytes
    are decoded, and the line ends of the decoded text are translated. *)
Definition text_mode_read (enc : codec) (b : bytes) : exn + string :=
  match decode enc b with
  | inr s => inr (PyStr.universal_newlines s)
  | inl e => inl e
  end.

(** [notebook["metadata"]], as far as the module reads it. *)
Record metadata := mkMetadata {
  kernelspec : option (gmap string string);
  meta_title : option string
}.

Record NotebookNode := mkNotebook {
  nb_metadata : metadata;
  nb_cells : list string
}.

(** The arguments of [ExecutePreprocessor(...)]. *)
Record ExecutePreprocessor := mkEP {
  ep_timeout : Z;
  ep_kernel_name : string;
  ep_shutdown_kernel : string;
  ep_startup_timeout : Z
}.

(** The configuration of an [HTMLExporter]. *)
Record HTMLExporter := mkExporter {
  extra_loaders : list string;
  template_file : option string;
  exclude_input : bool;
  exclude_input_prompt : bool;
  exclude_output_prompt : bool
}.

(** The libraries the module delegates to. *)
Class Libraries := {
  (** [jupyter_client.kernelspec.find_kernel_specs()] *)
  find_kernel_specs : gmap string string;
  (** [nbformat.reads(text, as_version)] *)
  nbformat_reads : string -> Z -> exn + NotebookNode;
  (** [nbformat.writes(notebook)] *)
  nbformat_writes : NotebookNode -> string;
  (** [ep.preprocess(notebook, {"metadata": {"path": path}})]: the cells
      are run in a kernel, in the folder [path], on the files of the
      host.  It gives the executed notebook, or what a cell has raised,
      and the files as the cells have left them. *)
  preprocess : ExecutePreprocessor -> string -> NotebookNode ->
               gmap string bytes -> (exn + NotebookNode) * gmap string bytes;
  (** [exporter.from_notebook_node(notebook, resources)], the body, for
      [resources["metadata"]["name"]] the given title *)
  from_notebook_node : HTMLExporter -> NotebookNode -> string -> exn + string;
  (** [BeautifulSoup(text, "html.parser")] *)
  html_parser : string -> Soup.soup Soup.dict;
  (** [str(soup)] *)
  soup_str : Soup.soup (option Soup.dict) -> string;
  (** the encoding of the host's locale, the default of [open] *)
  locale_codec : codec;
  utf8_codec : codec
}.

(** A call into a library that runs code or renders: kept in order. *)
Inductive call :=
| Preprocess (ep : ExecutePreprocessor) (path : string)
| FromNotebookNode (exporter : HTMLExporter) (title : string).

(** The files and the calls made so far.  A file is known by the path
    string given to the operating system: directories are taken to
    exist, and two spellings of the path of one file are not brought
    together. *)
Record world := mkWorld {
  files : gmap string bytes;
  calls : list call
}.

(** A method: it ends with a value or a raised exception, in a new world. *)
Definition M (A : Type) : Type := world -> (exn + A) * world.

#[export] Instance M_ret : MRet M := fun A a w => (inr a, w).

#[export] Instance M_bind : MBind M := fun A B k m w =>
  match m w with
  | (inr a, w') => k a w'
  | (inl e, w') => (inl e, w')
  end.

Definition raise {A} (e : exn) : M A := fun w => (inl e, w).

(** A library call that may raise. *)
Definition lift {A} (r : exn + A) : M A := fun w => (r, w).

(** [try: body except FileNotFoundError as e: handler(e)] *)
Definition try_except_FileNotFoundError {A} (body : M A) (handler : exn -> M A) : M A :=
  fun w => match body w with
           | (inl (FileNotFoundError p), w') => handler (FileNotFoundError p) w'
           | r => r
           end.

Definition log (c : call) : M unit :=
  fun w => (inr tt, mkWorld (files w) (calls w ++ [c])).

(** A library call that may raise and may change the files. *)
Definition lift_files {A}
    (f : gmap string bytes -> (exn + A) * gmap string bytes) : M A :=
  fun w => let '(r, fs) := f (files w) in (r, mkWorld fs (calls w)).

(** Reading the whole of a file opened for reading, in text mode, with
    an encoding. *)
Definition read_text (enc : codec) (path : string) : M string :=
  fun w => match files w !! path with
           | None => (inl (FileNotFoundError path), w)
           | Some b => (text_mode_read enc b, w)
           end.

(** Opening a file for writing empties it; the text is then encoded and
    written. *)
Definition write_text (enc : codec) (path : string) (text : string) : M unit :=
  fun w => match encode enc text with
           | inr b => (inr tt, mkWorld (<[path := b]> (files w)) (calls w))
           | inl e => (inl e, mkWorld (<[path := []]> (files w)) (calls w))
           end.

(** [path.unlink()] *)
Definition unlink (path : string) : M unit :=
  fun w => match files w !! path with
           | None => (inl (FileNotFoundError path), w)
           | Some _ => (inr tt, mkWorld (delete path (files w)) (calls w))
           end.

(** [notebook["metadata"]["kernelspec"]["name"]] *)
Definition kernelspec_name (nb : NotebookNode) : exn + string :=
  match kernelspec (nb_metadata nb) with
  | None => inl (KeyError "kernelspec")
  | Some ks => match ks !! "name" with
               | None => inl (KeyError "name")
               | Some n => inr n
               end
  end.

(** ** The methods of [Report] *)

Section Methods.
Context `{Libraries}.

(** [Report.execute_notebook(self, version=4, timeout=3600)] *)
Definition execute_notebook (self : Report) (version timeout : Z) : M unit :=
  notebook ←
    try_except_FileNotFoundError
      (text ← read_text utf8_codec (notebook_path self);
       lift (nbformat_reads text version))
      raise;
  required ← lift (kernelspec_name notebook);
  let kernel_name := kernel find_kernel_specs required in
  let ep := mkEP timeout kernel_name "immediate" 300 in
  log (Preprocess ep (notebook_folder self));;
  notebook ← lift_files (preprocess ep (notebook_folder self) notebook);
  write_text utf8_codec (PurePath.to_string (temporary_notebook self))
             (nbformat_writes notebook).

(** The exporter [notebook_to_report] configures, lines 94 to 106. *)
Definition configure_exporter (template_path : option string) : HTMLExporter :=
  match template_path with
  | Some tp =>
      if PyStr.truthy tp then
        let template_path := PurePath.of_string tp in
        mkExporter [PurePath.to_string (PurePath.parent template_path)]
                   (Some (PurePath.name template_path)) true true true
      else mkExporter [] None false false false
  | None => mkExporter [] None false false false
  end.

(** The title given to the exporter, lines 111 to 114. *)
Definition resolve_title (self : Report) (notebook : NotebookNode) : string :=
  match meta_title (nb_metadata notebook) with
  | Some t => t
  | None => title self
  end.

(** [Report.notebook_to_report(self, version=4, template_path=None)] *)
Definition notebook_to_report (self : Report) (version : Z)
    (template_path : option string) : M unit :=
  let html_exporter := configure_exporter template_path in
  try_except_FileNotFoundError
    (text ← read_text locale_codec (PurePath.to_string (temporary_notebook self));
     notebook ← lift (nbformat_reads text version);
     let title := resolve_title self notebook in
     log (FromNotebookNode html_exporter title);;
     body ← lift (from_notebook_node html_exporter notebook title);
     write_text locale_codec (PurePath.to_string (report_path self)) body;;
     unlink (PurePath.to_string (temporary_notebook self)))
    raise.

(** [Report.clean_html(self)] *)
Definition clean_html (self : Report) : M unit :=
  bare_html ← read_text locale_codec (PurePath.to_string (report_path self));
  let light_html := html_parser bare_html in
  let light_html := Soup.decompose_classes Soup.classes_to_remove light_html in
  let light_html := Soup.unwrap_classes Soup.classes_to_replace light_html in
  let light_html := map Soup.strip_table light_html in
  let light_html := drop_blank_lines (soup_str light_html) in
  write_text utf8_codec (PurePath.to_string (report_path self)) light_html.

(** The text [clean_html] writes for the text it has read. *)
Definition clean_text (bare_html : string) : string :=
  drop_blank_lines (soup_str (Soup.clean_tree (html_parser bare_html))).

End Methods.

(** ** Sample documents *)

Module Samples.
Import Soup.

Definition class_ (l : list string) : dict := {[ "class" := AList l ]}.


(** A code cell as the exporter renders it, with a prompt, a text
    output and two tables, one of them with an [id]. *)
Definition code_cell : soup dict :=
  [Tag "div" (class_ ["cell"; "border-box-sizing"; "code_cell"; "rendered"])
     [Tag "div" (class_ ["prompt"; "input_prompt"]) [NavigableString "In [1]:"];
      Tag "div" (class_ ["output_wrapper"])
        [Tag "div" (class_ ["output"])
           [Tag "div" (class_ ["output_area"])
              [Tag "div" (class_ ["output_text"; "output_subarea"])
                 [Tag "pre" ∅ [NavigableString "hi"]];
               Tag "div" (class_ ["output_html"; "rendered_html"; "output_subarea"])
                 [Tag "table" (<["border" := AStr "1"]> (class_ ["dataframe"]))
                    [Tag "tr" ∅ [Tag "td" ∅ [NavigableString "1"]]];
                  Tag "table" (<["id" := AStr "t1"]> (class_ ["dataframe"]))
                    [Tag "tr" ∅ [Tag "td" ∅ [NavigableString "2"]]]]]]];
      Tag "span" (class_ ["cell"]) [NavigableString "kept"]]].

(** A prompt within a prompt within a cell, the tags numbered. *)
Definition nested_prompts : soup InPlace.obj :=
  [Tag "div" (0, class_ ["cell"])
     [Tag "div" (1, class_ ["prompt"])
        [Tag "div" (2, class_ ["prompt"; "input_prompt"]) [NavigableString "In"]];
      Tag "div" (3, class_ ["cell"]) [NavigableString "out"]]].

(** *** A printer and a reader for a small tag language

    Enough of an HTML printer and parser to run the pipeline on the
    sample documents: tags with single-quoted attributes, and text. *)

(** The printer: [<name key='value' ...>], the contents, [</name>]. *)
Definition print_value (v : attr_value) : string :=
  match v with
  | AStr s => s
  | AList l => PyStr.join " " l
  end.

Definition print_attr (kv : string * attr_value) : string :=
  " " +:+ kv.1 +:+ "='" +:+ print_value kv.2 +:+ "'".

Fixpoint print_node (n : node dict) : string :=
  match n with
  | NavigableString s => s
  | Tag name attrs contents =>
      "<" +:+ name +:+ String.concat "" (map print_attr (map_to_list attrs)) +:+ ">"
      +:+ String.concat "" (map print_node contents)
      +:+ "</" +:+ name +:+ ">"
  end.

Definition print_soup (t : soup (option dict)) : string :=
  String.concat "" (map print_node (map erase t)).

(** The reader: the text is cut into opening tags, closing tags and
    text, and the tree is built with a stack of the tags still open. *)
Inductive token :=
| TOpen (name : string) (attrs : dict)
| TClose
| TText (s : string).

Inductive lex_state :=
| LText (acc : string)
| LName (acc : string)
| LClose
| LAttrs (name : string) (attrs : dict)
| LKey (name : string) (attrs : dict) (key : string)
| LValue (name : string) (attrs : dict) (key value : string).

Definition snoc (s : string) (c : ascii) : string := s +:+ String c "".

Definition attr_of (key value : string) : attr_value :=
  if String.eqb key "class" then AList (PyStr.split " " value) else AStr value.

Definition text_token (acc : string) : list token :=
  if PyStr.truthy acc then [TText acc] else [].

Definition lex_step (st : lex_state) (c : ascii) : lex_state * list token :=
  match st with
  | LText acc =>
      if Ascii.eqb c "<" then (LName "", text_token acc) else (LText (snoc acc c), [])
  | LName acc =>
      if Ascii.eqb c "/" then (LClose, [])
      else if Ascii.eqb c ">" then (LText "", [TOpen acc ∅])
      else if Ascii.eqb c " " then (LAttrs acc ∅, [])
      else (LName (snoc acc c), [])
  | LClose => if Ascii.eqb c ">" then (LText "", [TClose]) else (LClose, [])
  | LAttrs name attrs =>
      if Ascii.eqb c ">" then (LText "", [TOpen name attrs])
      else if Ascii.eqb c " " then (LAttrs name attrs, [])
      else (LKey name attrs (String c ""), [])
  | LKey name attrs key =>
      if Ascii.eqb c "'" then (LValue name attrs key "", [])
      else if Ascii.eqb c "=" then (LKey name attrs key, [])
      else (LKey name attrs (snoc key c), [])
  | LValue name attrs key value =>
      if Ascii.eqb c "'" then (LAttrs name (<[key := attr_of key value]> attrs), [])
      else (LValue name attrs key (snoc value c), [])
  end.

Fixpoint lex (st : lex_state) (s : string) : list token :=
  match s with
  | String c s' => let '(st', out) := lex_step st c in out ++ lex st' s'
  | EmptyString => match st with LText acc => text_token acc | _ => [] end
  end.

(** The open tags, innermost first, each with the children read so far. *)
Abbreviation frame := (string * dict * soup dict)%type.

Definition close_frame (f : frame) (below : list frame) (top : soup dict)
  : list frame * soup dict :=
  let '(name, attrs, children) := f in
  match below with
  | (n, a, ch) :: rest => ((n, a, ch ++ [Tag name attrs children]) :: rest, top)
  | [] => ([], top ++ [Tag name attrs children])
  end.

(** The tags still open at the end of the text are closed there. *)
Fixpoint unwind (stack : list frame) (inner top : soup dict) : soup dict :=
  match stack with
  | (n, a, ch) :: rest => unwind rest [Tag n a (ch ++ inner)] top
  | [] => top ++ inner
  end.

Fixpoint build (toks : list token) (stack : list frame) (top : soup dict) : soup dict :=
  match toks with
  | TOpen name attrs :: toks' => build toks' ((name, attrs, []) :: stack) top
  | TText s :: toks' =>
      match stack with
      | (n, a, ch) :: rest => build toks' ((n, a, ch ++ [NavigableString s]) :: rest) top
      | [] => build toks' [] (top ++ [NavigableString s])
      end
  | TClose :: toks' =>
      match stack with
      | f :: rest => let '(stack', top') := close_frame f rest top in build toks' stack' top'
      | [] => build toks' [] top
      end
  | [] => unwind stack [] top
  end.

Definition read_soup (s : string) : soup dict := build (lex (LText "") s) [] [].

(** *** Stand-ins for the other libraries *)

(** A notebook file: the kernel name, the title, then one cell a line. *)
Definition reads (text : string) (version : Z) : exn + NotebookNode :=
  match PyStr.split PyStr.nl text with
  | k :: t :: cells =>
      inr (mkNotebook
             (mkMetadata (if PyStr.truthy k then Some {[ "name" := k ]} else None)
                         (if PyStr.truthy t then Some t else None))
             cells)
  | _ => inl (LibraryError "nbformat" "not a notebook")
  end.

(** The notebook written the way [reads] reads it. *)
Definition writes (nb : NotebookNode) : string :=
  PyStr.join (String PyStr.nl "")
    (default "" (kernelspec (nb_metadata nb) ≫= (.!! "name"))
     :: default "" (meta_title (nb_metadata nb))
     :: nb_cells nb).

(** The cells are run in order, in the folder [path]: a cell
    [touch name] leaves an empty file of that name in the folder, and a
    cell that reads [raise] fails, the cells after it not being run. *)
Fixpoint run_cells (path : string) (cells : list string) (fs : gmap string bytes)
  : option exn * gmap string bytes :=
  match cells with
  | [] => (None, fs)
  | c :: cells' =>
      if String.eqb c "raise"
      then (Some (LibraryError "CellExecutionError" "raise"), fs)
      else if String.prefix "touch " c
           then run_cells path cells'
                  (<[path +:+ "/" +:+ String.substring 6 (String.length c - 6) c := []]> fs)
           else run_cells path cells' fs
  end.

Definition run (ep : ExecutePreprocessor) (path : string) (nb : NotebookNode)
    (fs : gmap string bytes) : (exn + NotebookNode) * gmap string bytes :=
  match run_cells path (nb_cells nb) fs with
  | (Some e, fs') => (inl e, fs')
  | (None, fs') => (inr nb, fs')
  end.

(** A cell rendered with its wrappers, a prompt, a text output and a
    table, with blank lines between them. *)
Definition render_cell (c : string) : string :=
  "<div class='cell border-box-sizing'><div class='prompt'>In</div>"
  +:+ "<div class='output_text'><pre>" +:+ c +:+ "</pre></div>"
  +:+ String PyStr.nl (String PyStr.nl "")
  +:+ "<div class='output'><table class='dataframe'><tr><td>" +:+ c
  +:+ "</td></tr></table></div></div>" +:+ String PyStr.nl "".

Definition render (exporter : HTMLExporter) (nb : NotebookNode) (title : string)
  : exn + string :=
  inr ("<h1>" +:+ title +:+ "</h1>" +:+ String PyStr.nl (String PyStr.nl "")
       +:+ String.concat "" (map render_cell (nb_cells nb))).

(** One byte a character, for the locale and for UTF-8 alike. *)
Definition ascii_codec : codec :=
  mkCodec (fun s => inr (list_byte_of_string s)) (fun b => inr (string_of_list_byte b)).

Definition libraries : Libraries :=
  {| find_kernel_specs := {[ "python3" := "/usr/share/jupyter/kernels/python3" ]};
     nbformat_reads := reads;
     nbformat_writes := writes;
     preprocess := run;
     from_notebook_node := render;
     html_parser := read_soup;
     soup_str := print_soup;
     locale_codec := ascii_codec;
     utf8_codec := ascii_codec |}.

Definition report : Report := Report_init "/data/daily_summary.ipynb" "/reports".

(** A notebook saved with a kernel the host does not have. *)
Definition daily_summary : string :=
  "conda-env" +:+ String PyStr.nl (String PyStr.nl "print(1)").

(** A notebook whose only cell fails. *)
Definition failing_notebook : string :=
  "python3" +:+ String PyStr.nl (String PyStr.nl "raise").

(** The world with the notebook of [report] holding [text], and no call
    made yet. *)
Definition world_with (text : string) : world :=
  mkWorld {[ "/data/daily_summary.ipynb" := list_byte_of_string text ]} [].

(** The world once the notebook has been executed, and once it has been
    exported. *)
Definition executed_world : world :=
  (execute_notebook (H := libraries) report 4 3600 (world_with daily_summary)).2.

Definition exported_world : world :=
  (notebook_to_report (H := libraries) report 4 None executed_world).2.

End Samples.

(** ** More sample documents and hosts *)

Module MoreSamples.
Import Soup.

(** A codec that knows the first 128 characters only. *)
Definition is_ascii (c : ascii) : bool := Nat.ltb (nat_of_ascii c) 128.

Definition ascii_only : codec :=
  mkCodec
    (fun s => if forallb is_ascii (list_ascii_of_string s)
              then inr (list_byte_of_string s)
              else inl (UnicodeError "ascii"))
    (fun b => let s := string_of_list_byte b in
              if forallb is_ascii (list_ascii_of_string s)
              then inr s
              else inl (UnicodeError "ascii")).

(** A title rendered with an anchor sign after it. *)
Definition render_with_anchor (exporter : HTMLExporter) (nb : NotebookNode)
    (title : string) : exn + string :=
  inr ("<h1>" +:+ title +:+ String (ascii_of_nat 182) "</h1>").

(** A host whose locale is ASCII. *)
Definition ascii_host : Libraries :=
  {| find_kernel_specs := {[ "python3" := "/usr/share/jupyter/kernels/python3" ]};
     nbformat_reads := Samples.reads;
     nbformat_writes := Samples.writes;
     preprocess := Samples.run;
     from_notebook_node := render_with_anchor;
     html_parser := Samples.read_soup;
     soup_str := Samples.print_soup;
     locale_codec := ascii_only;
     utf8_codec := Samples.ascii_codec |}.

(** A notebook without [ipynb] in its name, reported into [/tmp]. *)
Definition notes : Report := Report_init "/data/notes" "/tmp".

(** The world with the executed notebook of [notes] and nothing else. *)
Definition notes_world : world :=
  mkWorld {[ "/tmp/notes" := list_byte_of_string Samples.daily_summary ]} [].

(** A notebook whose metadata name no kernel. *)
Definition without_kernelspec : string :=
  String PyStr.nl (String PyStr.nl "print(1)").

(** A report with tags of other names and a text after the cell. *)
Definition mixed : soup dict :=
  Samples.code_cell ++ [Tag "p" ∅ [NavigableString "after"]].

(** A notebook whose cell leaves a file in its folder, the world once
    it has been executed, and once it has been exported. *)
Definition writing_notebook : string :=
  "python3" +:+ String PyStr.nl (String PyStr.nl "touch figures.csv").

Definition written_world : world :=
  (execute_notebook (H := Samples.libraries) Samples.report 4 3600
                    (Samples.world_with writing_notebook)).2.


(** The world with one file, the report of [Samples.report], holding
    [text] one byte a character. *)
Definition report_with (text : string) : world :=
  mkWorld {[ "/reports/daily_summary.html" := list_byte_of_string text ]} [].


(** The character reference of the carriage return, which the parser
    gives as that character in the strings of the tree. *)
Fixpoint char_refs (n : node dict) : node dict :=
  match n with
  | NavigableString s => NavigableString (PyStr.replace "&#13;" (String PyStr.cr "") s)
  | Tag name attrs contents => Tag name attrs (map char_refs contents)
  end.

(** The host of [Samples.libraries] with a parser that knows that
    character reference. *)
Definition refs_host : Libraries :=
  {| find_kernel_specs := {[ "python3" := "/usr/share/jupyter/kernels/python3" ]};
     nbformat_reads := Samples.reads;
     nbformat_writes := Samples.writes;
     preprocess := Samples.run;
     from_notebook_node := Samples.render;
     html_parser := fun text => map char_refs (Samples.read_soup text);
     soup_str := Samples.print_soup;
     locale_codec := Samples.ascii_codec;
     utf8_codec := Samples.ascii_codec |}.

(** A paragraph with two carriage returns, written as references. *)
Definition carriage_returns : string := "<p>a&#13;&#13;b</p>".

(** UTF-8 for the characters below 256: one byte below 128, and two
    bytes from there on. *)
Definition utf8_char (c : ascii) : list ascii :=
  let n := nat_of_ascii c in
  if Nat.ltb n 128 then [c]
  else [ascii_of_nat (192 + n / 64); ascii_of_nat (128 + n mod 64)].

Fixpoint utf8_chars (l : list ascii) : option (list ascii) :=
  match l with
  | [] => Some []
  | c :: l' =>
      let n := nat_of_ascii c in
      if Nat.ltb n 128 then cons c <$> utf8_chars l'
      else if Nat.leb 194 n && Nat.leb n 195 then
        match l' with
        | c' :: l'' =>
            let m := nat_of_ascii c' in
            if Nat.leb 128 m && Nat.ltb m 192
            then cons (ascii_of_nat ((n - 192) * 64 + (m - 128))) <$> utf8_chars l''
            else None
        | [] => None
        end
      else None
  end.

Definition utf8_below_256 : codec :=
  mkCodec
    (fun s => inr (list_byte_of_string
                     (string_of_list_ascii
                        (flat_map utf8_char (list_ascii_of_string s)))))
    (fun b => match utf8_chars (list_ascii_of_string (string_of_list_byte b)) with
              | Some l => inr (string_of_list_ascii l)
              | None => inl (UnicodeError "utf-8")
              end).

(** A host whose locale is Latin-1, one byte a character. *)
Definition latin1_host : Libraries :=
  {| find_kernel_specs := {[ "python3" := "/usr/share/jupyter/kernels/python3" ]};
     nbformat_reads := Samples.reads;
     nbformat_writes := Samples.writes;
     preprocess := Samples.run;
     from_notebook_node := Samples.render;
     html_parser := Samples.read_soup;
     soup_str := Samples.print_soup;
     locale_codec := Samples.ascii_codec;
     utf8_codec := utf8_below_256 |}.

(** A paragraph that holds the letter e with an acute accent. *)
Definition accented : string := "<p>" +:+ String (ascii_of_nat 233) "</p>".

End MoreSamples.

(** * Properties *)

(** ** Lists *)

Section FlatMap.
Context {A B C : Type}.

Lemma flat_map_Forall_ext (f g : A -> list B) (l : list A) :
  Forall (fun x => f x = g x) l -> flat_map f l = flat_map g l.
Proof.
  induction 1 as [|x l Hx _ IH]; simpl; [reflexivity|].
  rewrite Hx, IH. reflexivity.
Qed.

Lemma flat_map_flat_map (f : A -> list B) (g : B -> list C) (l : list A) :
  flat_map g (flat_map f l) = flat_map (fun x => flat_map g (f x)) l.
Proof.
  induction l as [|x l IH]; simpl; [reflexivity|].
  rewrite flat_map_app, IH. reflexivity.
Qed.

Lemma flat_map_map (f : A -> B) (g : B -> list C) (l : list A) :
  flat_map g (map f l) = flat_map (fun x => g (f x)) l.
Proof.
  induction l as [|x l IH]; simpl; [reflexivity|]. rewrite IH. reflexivity.
Qed.

Lemma flat_map_sublist (f g : A -> list B) (l : list A) :
  Forall (fun x => f x `sublist_of` g x) l ->
  flat_map f l `sublist_of` flat_map g l.
Proof.
  induction 1 as [|x l Hx _ IH]; simpl; [constructor|].
  apply sublist_app; assumption.
Qed.

Lemma map_flat_map (f : A -> list B) (g : B -> C) (l : list A) :
  map g (flat_map f l) = flat_map (fun x => map g (f x)) l.
Proof.
  induction l as [|x l IH]; simpl; [reflexivity|].
  rewrite map_app, IH. reflexivity.
Qed.

End FlatMap.

Lemma sublist_Forall {A} (P : A -> Prop) (l k : list A) :
  l `sublist_of` k -> Forall P k -> Forall P l.
Proof.
  intros Hsub Hk. apply Forall_forall. intros x Hx.
  eapply (proj1 (Forall_forall P k) Hk), elem_of_sublist; eassumption.
Qed.


(** A loop whose passes commute gives the same result in any order. *)
Lemma fold_left_commute_Permutation {S X : Type} (f : S -> X -> S) :
  (forall s x y, f (f s x) y = f (f s y) x) ->
  forall l l' : list X, l ≡ₚ l' -> forall s, fold_left f l s = fold_left f l' s.
Proof.
  intros Hcomm l l' Hp.
  induction Hp as [|x l l' _ IH|x y l|l l' l'' _ IH1 _ IH2]; intros s; simpl.
  - reflexivity.
  - apply IH.
  - rewrite Hcomm. reflexivity.
  - rewrite IH1. apply IH2.
Qed.

(** ** Strings *)

Module PyStrFacts.
Import PyStr.

Lemma replace_from_all_skipped old new s :
  replace_from (String.length s) old new s = "".
Proof. induction s as [|c s IH]; simpl; [reflexivity|apply IH]. Qed.

Lemma prefix_refl s : String.prefix s s = true.
Proof.
  induction s as [|c s IH]; simpl; [reflexivity|].
  destruct (ascii_dec c c); [apply IH|contradiction].
Qed.

Lemma prefix_nil_l s : String.prefix "" s = true.
Proof. destruct s; reflexivity. Qed.

Lemma append_cons c s t : String c s +:+ t = String c (s +:+ t).
Proof. reflexivity. Qed.

Lemma append_nil_r s : s +:+ "" = s.
Proof.
  induction s as [|c s IH]; [reflexivity|].
  change (String c (s +:+ "") = String c s). congruence.
Qed.

Lemma append_assoc s1 s2 s3 : (s1 +:+ s2) +:+ s3 = s1 +:+ (s2 +:+ s3).
Proof.
  induction s1 as [|c s1 IH]; [reflexivity|].
  change (String c ((s1 +:+ s2) +:+ s3) = String c (s1 +:+ (s2 +:+ s3))).
  congruence.
Qed.

Lemma replace_itself a old' new :
  replace (String a old') new (String a old') = new.
Proof.
  unfold replace. cbn [replace_from]. rewrite prefix_refl.
  cbn [String.length].
  replace (S (String.length old') - 1) with (String.length old') by lia.
  rewrite replace_from_all_skipped.
  apply append_nil_r.
Qed.

(** A match of [p] that runs into the character after [u] either lies
    within [u] or has that character in it. *)
Lemma prefix_app_inv p u a v :
  String.prefix p (u +:+ String a v) = true ->
  String.prefix p u = true \/ has_char a p = true.
Proof.
  revert p. induction u as [|c u IH]; intros [|b p]; simpl;
    try (left; reflexivity).
  - destruct (ascii_dec b a) as [->|_]; [|discriminate].
    intros _. right. rewrite Ascii.eqb_refl. reflexivity.
  - destruct (ascii_dec b c) as [->|_]; [|discriminate].
    intros Hp. destruct (IH _ Hp) as [Hl|Hr]; [left; exact Hl|right].
    rewrite Hr. apply orb_true_r.
Qed.

(** The same, for a match that starts within a non-empty [u]: the
    character is then beyond the first one of [p]. *)
Lemma prefix_app_inv_tail b p c u a v :
  String.prefix (String b p) (String c u +:+ String a v) = true ->
  String.prefix (String b p) (String c u) = true \/ has_char a p = true.
Proof.
  simpl. destruct (ascii_dec b c) as [->|_]; [|discriminate].
  apply prefix_app_inv.
Qed.

Lemma contains_cons pat c s :
  contains pat (String c s) = String.prefix pat (String c s) || contains pat s.
Proof. reflexivity. Qed.

(** Where [old] occurs in [s +:+ old] at its end only, the replacement
    is made there. *)
Lemma replace_suffix a old' new s :
  has_char a old' = false ->
  contains (String a old') s = false ->
  replace (String a old') new (s +:+ String a old') = s +:+ new.
Proof.
  intros Ha. induction s as [|c s IH]; intros Hs.
  - apply replace_itself.
  - rewrite contains_cons in Hs. apply orb_false_elim in Hs as [Hhd Htl].
    rewrite !append_cons. unfold replace. cbn [replace_from].
    destruct (String.prefix (String a old') (String c (s +:+ String a old'))) eqn:Hp.
    + rewrite <- append_cons in Hp.
      apply (prefix_app_inv_tail a old' c s a old') in Hp as [Hp|Hp]; congruence.
    + f_equal. apply IH, Htl.
Qed.

Lemma replace_absent old new s :
  contains old s = false -> replace old new s = s.
Proof.
  unfold replace. induction s as [|c s IH]; intros Hs; [reflexivity|].
  rewrite contains_cons in Hs. apply orb_false_elim in Hs as [Hhd Htl].
  cbn [replace_from]. rewrite Hhd. f_equal. apply IH, Htl.
Qed.

(** Appending a character that is not in [pat] gives no new match. *)
Lemma contains_app_char b pat a s :
  has_char a (String b pat) = false ->
  contains (String b pat) s = false ->
  contains (String b pat) (s +:+ String a "") = false.
Proof.
  intros Ha. induction s as [|c s IH]; intros Hs.
  - simpl in Ha |- *. apply orb_false_elim in Ha as [Hba _].
    destruct (ascii_dec b a) as [->|_]; [|reflexivity].
    rewrite Ascii.eqb_refl in Hba. discriminate.
  - rewrite contains_cons in Hs. apply orb_false_elim in Hs as [Hhd Htl].
    rewrite append_cons, contains_cons. apply orb_false_intro; [|apply IH, Htl].
    destruct (String.prefix (String b pat) (String c (s +:+ String a ""))) eqn:Hp;
      [|reflexivity].
    rewrite <- append_cons in Hp.
    apply (prefix_app_inv (String b pat) (String c s) a "") in Hp as [Hp|Hp]; congruence.
Qed.

Lemma replace_underscores s :
  replace "_" " " s = underscores_to_spaces s.
Proof.
  unfold replace. induction s as [|c s IH]; [reflexivity|].
  cbn [replace_from underscores_to_spaces String.prefix].
  destruct (ascii_dec "_" c) as [<-|Hne].
  - rewrite prefix_nil_l. simpl. f_equal. apply IH.
  - rewrite (proj2 (Ascii.eqb_neq c "_")) by congruence. f_equal. apply IH.
Qed.

Lemma title_of_stem stem :
  contains ".ipynb" stem = false ->
  replace "_" " " (replace ".ipynb" "" (stem +:+ ".ipynb")) = underscores_to_spaces stem.
Proof.
  intros Hstem. rewrite (replace_suffix "." "ipynb" "" stem eq_refl Hstem).
  rewrite append_nil_r. apply replace_underscores.
Qed.

Lemma html_name_of_stem stem :
  contains "ipynb" stem = false ->
  replace "ipynb" "html" (stem +:+ ".ipynb") = stem +:+ ".html".
Proof.
  intros Hstem.
  change (stem +:+ ".ipynb") with (stem +:+ ("." +:+ "ipynb")).
  rewrite <- append_assoc.
  rewrite (replace_suffix "i" "pynb" "html" (stem +:+ ".") eq_refl).
  - apply append_assoc.
  - apply (contains_app_char "i" "pynb" "." stem eq_refl Hstem).
Qed.

Lemma split_not_nil sep s : split sep s <> [].
Proof.
  destruct s as [|c s]; simpl; [discriminate|].
  destruct (Ascii.eqb c sep); [discriminate|].
  destruct (split sep s); discriminate.
Qed.

Lemma split_no_sep sep s : has_char sep s = false -> split sep s = [s].
Proof.
  induction s as [|c s IH]; simpl; [reflexivity|].
  intros Hs. apply orb_false_elim in Hs as [Hc Hs].
  rewrite Hc, (IH Hs). reflexivity.
Qed.

Lemma split_app_sep sep x rest :
  has_char sep x = false ->
  split sep (x +:+ String sep rest) = x :: split sep rest.
Proof.
  induction x as [|c x IH]; intros Hx.
  - simpl. rewrite Ascii.eqb_refl. reflexivity.
  - simpl in Hx. apply orb_false_elim in Hx as [Hc Hx].
    rewrite append_cons. cbn [split]. rewrite Hc, (IH Hx). reflexivity.
Qed.

Lemma split_pieces sep s : Forall (fun l => has_char sep l = false) (split sep s).
Proof.
  induction s as [|c s IH]; simpl.
  - repeat constructor.
  - destruct (Ascii.eqb c sep) eqn:Hc; [constructor; [reflexivity|exact IH]|].
    destruct (split sep s) as [|l ls]; [repeat constructor; simpl; rewrite Hc; reflexivity|].
    apply Forall_cons in IH as [Hl Hls]. constructor; [|exact Hls].
    simpl. rewrite Hc, Hl. reflexivity.
Qed.

Lemma split_join sep l :
  l <> [] -> Forall (fun x => has_char sep x = false) l ->
  split sep (join (String sep "") l) = l.
Proof.
  unfold join. induction l as [|x l IH]; intros Hne Hall; [contradiction|].
  apply Forall_cons in Hall as [Hx Hl]. destruct l as [|y l].
  - apply split_no_sep, Hx.
  - change (String.concat (String sep "") (x :: y :: l))
      with (x +:+ String sep (String.concat (String sep "") (y :: l))).
    rewrite (split_app_sep _ _ _ Hx), IH; [reflexivity|discriminate|exact Hl].
Qed.


Lemma filter_Forall {A} (P : A -> Prop) (f : A -> bool) l :
  Forall P l -> Forall P (List.filter f l).
Proof.
  induction 1 as [|x l Hx _ IH]; simpl; [constructor|].
  destruct (f x); [constructor; assumption|exact IH].
Qed.

(** The lines of the text without its blank lines are the lines of the
    text that are not empty. *)
Lemma drop_blank_lines_lines html :
  drop_blank_lines html <> "" ->
  split nl (drop_blank_lines html) = List.filter truthy (split nl html).
Proof.
  unfold drop_blank_lines. intros Hne. apply split_join.
  - intros Hnil. rewrite Hnil in Hne. apply Hne. reflexivity.
  - apply filter_Forall, split_pieces.
Qed.


Lemma drop_blank_lines_idempotent html :
  drop_blank_lines (drop_blank_lines html) = drop_blank_lines html.
Proof.
  destruct (String.eqb_spec (drop_blank_lines html) "") as [Hempty|Hne].
  - rewrite Hempty. reflexivity.
  - unfold drop_blank_lines at 1. rewrite (drop_blank_lines_lines _ Hne).
    unfold drop_blank_lines. f_equal.
    generalize (split nl html). intros l.
    induction l as [|x l IH]; simpl; [reflexivity|].
    destruct (truthy x) eqn:Hx; simpl; rewrite ?Hx, IH; reflexivity.
Qed.

Lemma has_char_app a s t : has_char a (s +:+ t) = has_char a s || has_char a t.
Proof.
  induction s as [|c s IH]; [reflexivity|].
  rewrite append_cons. simpl. rewrite IH. apply orb_assoc.
Qed.

(** The last piece of a text that ends with a separator and [base]. *)
Lemma split_app_last sep x base :
  has_char sep base = false ->
  split sep (x +:+ String sep base) = split sep x ++ [base].
Proof.
  intros Hbase. induction x as [|c x IH].
  - simpl. rewrite Ascii.eqb_refl, (split_no_sep _ _ Hbase). reflexivity.
  - rewrite append_cons. cbn [split]. rewrite IH.
    destruct (Ascii.eqb c sep); [reflexivity|].
    destruct (split sep x) as [|l ls] eqn:Hx; [|reflexivity].
    exfalso. apply (split_not_nil sep x), Hx.
Qed.

Lemma lstrip_app_last sep x base :
  has_char sep base = false ->
  lstrip sep (x +:+ String sep base) = base
  \/ exists y, lstrip sep (x +:+ String sep base) = y +:+ String sep base.
Proof.
  intros Hbase. induction x as [|c x IH].
  - left. simpl. rewrite Ascii.eqb_refl.
    destruct base as [|b base]; [reflexivity|].
    simpl in Hbase |- *. apply orb_false_elim in Hbase as [Hb _].
    rewrite Hb. reflexivity.
  - rewrite append_cons. cbn [lstrip]. destruct (Ascii.eqb c sep); [exact IH|].
    right. exists (String c x). reflexivity.
Qed.

Lemma length_append s t :
  String.length (s +:+ t) = String.length s + String.length t.
Proof.
  induction s as [|c s IH]; [reflexivity|].
  rewrite append_cons. simpl. rewrite IH. reflexivity.
Qed.

End PyStrFacts.

(** ** Paths and the constructor *)

Module PurePathFacts.
Import PyStr PyStrFacts.

Lemma last_filter_app_keep (f : string -> bool) l base :
  f base = true -> List.last (List.filter f (l ++ [base])) "" = base.
Proof.
  intros Hkeep. rewrite List.filter_app. simpl. rewrite Hkeep. apply List.last_last.
Qed.

(** The name of a path that ends with a slash and [base]. *)
Lemma name_of_string dir base :
  has_char slash base = false -> PurePath.keep_part base = true ->
  PurePath.name (PurePath.of_string (dir +:+ String slash base)) = base.
Proof.
  intros Hbase Hkeep.
  assert (Hrel : forall rel,
    rel = base \/ (exists y, rel = y +:+ String slash base) ->
    List.last (List.filter PurePath.keep_part (split slash rel)) "" = base).
  { intros rel [->|[y ->]].
    - rewrite (split_no_sep _ _ Hbase). simpl. rewrite Hkeep. reflexivity.
    - rewrite (split_app_last _ _ _ Hbase). apply last_filter_app_keep, Hkeep. }
  unfold PurePath.of_string, PurePath.splitroot.
  destruct (String.prefix "/" (dir +:+ String slash base)).
  - destruct (_ =? 2)%nat; unfold PurePath.name; cbn [PurePath.parts];
      apply Hrel, lstrip_app_last, Hbase.
  - unfold PurePath.name. cbn [PurePath.parts]. apply Hrel. right. eauto.
Qed.

Lemma keep_part_long x : 2 <= String.length x -> PurePath.keep_part x = true.
Proof.
  destruct x as [|a [|b x]]; simpl; [lia|lia|intros _].
  unfold PurePath.keep_part. simpl. destruct (Ascii.eqb a "."); reflexivity.
Qed.

(** The title of a notebook [dir/stem.ipynb]. *)
Lemma title_of_notebook dir stem report_folder :
  has_char slash stem = false ->
  contains ".ipynb" stem = false ->
  title (Report_init (dir +:+ String slash (stem +:+ ".ipynb")) report_folder)
  = underscores_to_spaces stem.
Proof.
  intros Hslash Hstem. unfold Report_init. cbn [title].
  rewrite name_of_string.
  - apply title_of_stem, Hstem.
  - rewrite has_char_app, Hslash. reflexivity.
  - apply keep_part_long. rewrite length_append. simpl. lia.
Qed.

(** The report of a notebook [dir/stem.ipynb] whose stem does not
    contain [ipynb]. *)
Lemma report_path_of_notebook dir stem report_folder :
  has_char slash stem = false ->
  contains "ipynb" stem = false ->
  report_path (Report_init (dir +:+ String slash (stem +:+ ".ipynb")) report_folder)
  = PurePath.joinpath (PurePath.of_string report_folder)
                      (PurePath.of_string (stem +:+ ".html")).
Proof.
  intros Hslash Hstem. unfold Report_init. cbn [report_path].
  rewrite name_of_string.
  - rewrite (html_name_of_stem _ Hstem). reflexivity.
  - rewrite has_char_app, Hslash. reflexivity.
  - apply keep_part_long. rewrite length_append. simpl. lia.
Qed.

End PurePathFacts.

(** ** The tree passes *)

Module SoupFacts.
Import Soup.

(** Induction on a tree: the property holds for a tag when it holds for
    each of its children. *)
Lemma node_ind {A} (P : node A -> Prop) :
  (forall s, P (NavigableString s)) ->
  (forall name attrs contents, Forall P contents -> P (Tag name attrs contents)) ->
  forall n, P n.
Proof.
  intros Hs Ht. fix IH 1. intros [s|name attrs contents].
  - apply Hs.
  - apply Ht. induction contents as [|c cs IHcs]; constructor.
    + apply IH.
    + apply IHcs.
Qed.

(** *** The unwrap passes commute *)

Lemma unwrap_node_commute c1 c2 n :
  flat_map (unwrap_node c2) (unwrap_node c1 n)
  = flat_map (unwrap_node c1) (unwrap_node c2 n).
Proof.
  induction n as [s|name attrs contents IH] using node_ind; [reflexivity|].
  assert (Hsw : flat_map (unwrap_node c2) (flat_map (unwrap_node c1) contents)
                = flat_map (unwrap_node c1) (flat_map (unwrap_node c2) contents)).
  { rewrite !flat_map_flat_map. apply flat_map_Forall_ext, IH. }
  simpl.
  destruct (div_with_class c1 name attrs) eqn:H1,
           (div_with_class c2 name attrs) eqn:H2;
    simpl; rewrite ?H1, ?H2, ?app_nil_r; congruence.
Qed.

Lemma unwrap_class_commute c1 c2 t :
  unwrap_class c2 (unwrap_class c1 t) = unwrap_class c1 (unwrap_class c2 t).
Proof.
  unfold unwrap_class. rewrite !flat_map_flat_map.
  apply flat_map_Forall_ext, Forall_forall. intros n _.
  apply unwrap_node_commute.
Qed.

(** *** A pass only takes tags away *)

Lemma unwrap_node_tags c n :
  all_tags (unwrap_node c n) `sublist_of` tags_of n.
Proof.
  induction n as [s|name attrs contents IH] using node_ind; [constructor|].
  assert (Hch : all_tags (flat_map (unwrap_node c) contents)
                `sublist_of` flat_map tags_of contents).
  { unfold all_tags. rewrite flat_map_flat_map. apply flat_map_sublist, IH. }
  simpl. destruct (div_with_class c name attrs); simpl.
  - apply sublist_cons, Hch.
  - rewrite app_nil_r. apply sublist_skip, Hch.
Qed.

Lemma unwrap_class_tags c t :
  all_tags (unwrap_class c t) `sublist_of` all_tags t.
Proof.
  unfold all_tags, unwrap_class. rewrite flat_map_flat_map.
  apply flat_map_sublist, Forall_forall. intros n _. apply unwrap_node_tags.
Qed.

Lemma decompose_node_tags c n :
  all_tags (decompose_node c n) `sublist_of` tags_of n.
Proof.
  induction n as [s|name attrs contents IH] using node_ind; [constructor|].
  simpl. destruct (div_with_class c name attrs); simpl.
  - apply sublist_nil_l.
  - rewrite app_nil_r. apply sublist_skip.
    unfold all_tags in IH. rewrite flat_map_flat_map.
    apply flat_map_sublist, IH.
Qed.

Lemma decompose_class_tags c t :
  all_tags (decompose_class c t) `sublist_of` all_tags t.
Proof.
  unfold all_tags, decompose_class. rewrite flat_map_flat_map.
  apply flat_map_sublist, Forall_forall. intros n _. apply decompose_node_tags.
Qed.

Lemma unwrap_classes_tags cs t :
  all_tags (unwrap_classes cs t) `sublist_of` all_tags t.
Proof.
  unfold unwrap_classes. revert t.
  induction cs as [|c cs IH]; intros t; simpl; [reflexivity|].
  etrans; [apply IH | apply unwrap_class_tags].
Qed.

Lemma decompose_classes_tags cs t :
  all_tags (decompose_classes cs t) `sublist_of` all_tags t.
Proof.
  unfold decompose_classes. revert t.
  induction cs as [|c cs IH]; intros t; simpl; [reflexivity|].
  etrans; [apply IH | apply decompose_class_tags].
Qed.

(** *** After the pass for a class, no [div] is selected by it *)

Lemma unwrap_node_unselected c n :
  Forall (unselected c) (all_tags (unwrap_node c n)).
Proof.
  induction n as [s|name attrs contents IH] using node_ind; [constructor|].
  assert (Hch : Forall (unselected c) (all_tags (flat_map (unwrap_node c) contents))).
  { unfold all_tags. rewrite flat_map_flat_map. apply Forall_flat_map, IH. }
  simpl. destruct (div_with_class c name attrs) eqn:Hsel; simpl.
  - apply Hch.
  - rewrite app_nil_r. constructor; assumption.
Qed.

Lemma unwrap_class_unselected c t :
  Forall (unselected c) (all_tags (unwrap_class c t)).
Proof.
  unfold all_tags, unwrap_class. rewrite flat_map_flat_map.
  apply Forall_flat_map, Forall_forall. intros n _. apply unwrap_node_unselected.
Qed.

Lemma decompose_node_unselected c n :
  Forall (unselected c) (all_tags (decompose_node c n)).
Proof.
  induction n as [s|name attrs contents IH] using node_ind; [constructor|].
  simpl. destruct (div_with_class c name attrs) eqn:Hsel; simpl; [constructor|].
  rewrite app_nil_r. constructor; [assumption|].
  unfold all_tags in IH. rewrite flat_map_flat_map. apply Forall_flat_map, IH.
Qed.

Lemma decompose_class_unselected c t :
  Forall (unselected c) (all_tags (decompose_class c t)).
Proof.
  unfold all_tags, decompose_class. rewrite flat_map_flat_map.
  apply Forall_flat_map, Forall_forall. intros n _. apply decompose_node_unselected.
Qed.

Lemma unwrap_classes_unselected cs c t :
  c ∈ cs -> Forall (unselected c) (all_tags (unwrap_classes cs t)).
Proof.
  unfold unwrap_classes. revert t.
  induction cs as [|c' cs IH]; intros t Hin; [inversion Hin|].
  apply elem_of_cons in Hin as [->|Hin]; simpl; [|apply IH, Hin].
  eapply sublist_Forall; [|apply unwrap_class_unselected].
  apply (unwrap_classes_tags cs).
Qed.

Lemma decompose_classes_unselected cs c t :
  c ∈ cs -> Forall (unselected c) (all_tags (decompose_classes cs t)).
Proof.
  unfold decompose_classes. revert t.
  induction cs as [|c' cs IH]; intros t Hin; [inversion Hin|].
  apply elem_of_cons in Hin as [->|Hin]; simpl; [|apply IH, Hin].
  eapply sublist_Forall; [|apply decompose_class_unselected].
  apply (decompose_classes_tags cs).
Qed.

(** *** A pass changes nothing where it selects nothing *)

Lemma unwrap_node_id c n :
  Forall (unselected c) (tags_of n) -> unwrap_node c n = [n].
Proof.
  induction n as [s|name attrs contents IH] using node_ind; [reflexivity|].
  simpl. intros Hall. apply Forall_cons in Hall as [Hhd Hch].
  unfold unselected in Hhd. simpl in Hhd. rewrite Hhd.
  apply Forall_flat_map in Hch. do 2 f_equal.
  induction IH as [|x l Hx _ IHl]; simpl; [reflexivity|].
  apply Forall_cons in Hch as [Hx' Hl']. rewrite (Hx Hx'), (IHl Hl'). reflexivity.
Qed.

Lemma unwrap_class_id c t :
  Forall (unselected c) (all_tags t) -> unwrap_class c t = t.
Proof.
  unfold all_tags, unwrap_class. intros Hall. apply Forall_flat_map in Hall.
  induction Hall as [|x l Hx _ IHl]; simpl; [reflexivity|].
  rewrite (unwrap_node_id _ _ Hx), IHl. reflexivity.
Qed.

Lemma decompose_node_id c n :
  Forall (unselected c) (tags_of n) -> decompose_node c n = [n].
Proof.
  induction n as [s|name attrs contents IH] using node_ind; [reflexivity|].
  simpl. intros Hall. apply Forall_cons in Hall as [Hhd Hch].
  unfold unselected in Hhd. simpl in Hhd. rewrite Hhd.
  apply Forall_flat_map in Hch. do 2 f_equal.
  induction IH as [|x l Hx _ IHl]; simpl; [reflexivity|].
  apply Forall_cons in Hch as [Hx' Hl']. rewrite (Hx Hx'), (IHl Hl'). reflexivity.
Qed.

Lemma decompose_class_id c t :
  Forall (unselected c) (all_tags t) -> decompose_class c t = t.
Proof.
  unfold all_tags, decompose_class. intros Hall. apply Forall_flat_map in Hall.
  induction Hall as [|x l Hx _ IHl]; simpl; [reflexivity|].
  rewrite (decompose_node_id _ _ Hx), IHl. reflexivity.
Qed.

Lemma unwrap_classes_id cs t :
  Forall (fun c => Forall (unselected c) (all_tags t)) cs -> unwrap_classes cs t = t.
Proof.
  unfold unwrap_classes. induction 1 as [|c cs Hc _ IH]; simpl; [reflexivity|].
  rewrite (unwrap_class_id _ _ Hc). apply IH.
Qed.

Lemma decompose_classes_id cs t :
  Forall (fun c => Forall (unselected c) (all_tags t)) cs -> decompose_classes cs t = t.
Proof.
  unfold decompose_classes. induction 1 as [|c cs Hc _ IH]; simpl; [reflexivity|].
  rewrite (decompose_class_id _ _ Hc). apply IH.
Qed.

(** *** The tags after the table pass *)

Lemma strip_table_tags n :
  tags_of (strip_table n) = map strip_attrs (tags_of n).
Proof.
  induction n as [s|name attrs contents IH] using node_ind; [reflexivity|].
  simpl. f_equal. rewrite flat_map_map, map_flat_map.
  apply flat_map_Forall_ext, IH.
Qed.

Lemma strip_tables_tags (t : soup dict) :
  all_tags (map strip_table t) = map strip_attrs (all_tags t).
Proof.
  unfold all_tags. rewrite flat_map_map, map_flat_map.
  apply flat_map_ext, strip_table_tags.
Qed.

(** *** The tables through the passes *)




Lemma div_with_class_name c name attrs :
  div_with_class c name attrs = true -> name = "div".
Proof.
  unfold div_with_class. intros Hsel. apply andb_prop in Hsel as [Hname _].
  apply String.eqb_eq, Hname.
Qed.






End SoupFacts.

(** ** The loops on tag objects and the passes *)

Module InPlaceFacts.
Import Soup SoupFacts InPlace.

Lemma ids_app t1 t2 : ids (t1 ++ t2) = ids t1 ++ ids t2.
Proof. unfold ids, all_tags. rewrite flat_map_app, map_app. reflexivity. Qed.

Lemma ids_Tag name j attrs contents :
  ids [Tag name (j, attrs) contents] = j :: ids contents.
Proof. unfold ids, all_tags. simpl. rewrite app_nil_r. reflexivity. Qed.

Lemma ids_cons n t : ids (n :: t) = ids [n] ++ ids t.
Proof. apply (ids_app [n] t). Qed.

(** Induction on a tree whose tags have distinct identities. *)
Lemma NoDup_ids_cons n t : NoDup (ids (n :: t)) -> NoDup (ids [n]) /\ NoDup (ids t).
Proof.
  rewrite ids_cons. intros Hnd. apply NoDup_app in Hnd as (H1 & _ & H2). auto.
Qed.

Lemma NoDup_ids_Tag name j attrs contents :
  NoDup (ids [Tag name (j, attrs) contents]) -> (j ∉ ids contents) /\ NoDup (ids contents).
Proof. rewrite ids_Tag. apply NoDup_cons. Qed.

Lemma bool_decide_cons_ne (i j : nat) (S : list nat) :
  j <> i -> bool_decide (j ∈ i :: S) = bool_decide (j ∈ S).
Proof.
  intros Hne. apply bool_decide_ext. rewrite elem_of_cons. tauto.
Qed.

(** *** Deleting *)





(** *** Unwrapping *)

Lemma not_in_ids_cons i n t : i ∉ ids (n :: t) -> (i ∉ ids [n]) /\ (i ∉ ids t).
Proof. rewrite ids_cons. intros Hout. split; intros Hin; apply Hout, elem_of_app; auto. Qed.

Lemma unwrap_set_fresh i S n :
  i ∉ ids [n] -> unwrap_set (i :: S) n = unwrap_set S n.
Proof.
  induction n as [s|name [j attrs] contents IH] using node_ind; [reflexivity|].
  rewrite ids_Tag. intros Hout. apply not_elem_of_cons in Hout as [Hne Hout].
  assert (Hch : flat_map (unwrap_set (i :: S)) contents
                = flat_map (unwrap_set S) contents).
  { clear -IH Hout. induction IH as [|x l Hx _ IHl]; simpl; [reflexivity|].
    apply not_in_ids_cons in Hout as [Hx' Hl']. rewrite (Hx Hx'), (IHl Hl'). reflexivity. }
  simpl. rewrite bool_decide_cons_ne by congruence. rewrite Hch. reflexivity.
Qed.

Lemma unwrap_set_fresh_soup i S t :
  i ∉ ids t -> flat_map (unwrap_set (i :: S)) t = flat_map (unwrap_set S) t.
Proof.
  induction t as [|x l IHl]; simpl; [reflexivity|]. intros Hout.
  apply not_in_ids_cons in Hout as [Hx Hl].
  rewrite (unwrap_set_fresh _ _ _ Hx), (IHl Hl). reflexivity.
Qed.

Lemma unwrap_at_set i S n :
  NoDup (ids [n]) ->
  flat_map (unwrap_at i) (unwrap_set S n) = unwrap_set (i :: S) n.
Proof.
  induction n as [s|name [j attrs] contents IH] using node_ind; [reflexivity|].
  intros Hnd. apply NoDup_ids_Tag in Hnd as [Hfresh Hnd].
  assert (Hch : flat_map (unwrap_at i) (flat_map (unwrap_set S) contents)
                = flat_map (unwrap_set (i :: S)) contents).
  { rewrite flat_map_flat_map. clear -IH Hnd.
    induction IH as [|x l Hx _ IHl]; simpl; [reflexivity|].
    apply NoDup_ids_cons in Hnd as [Hx' Hl']. rewrite (Hx Hx'), (IHl Hl'). reflexivity. }
  simpl. destruct (decide (j = i)) as [->|Hne].
  - rewrite (bool_decide_eq_true_2 (i ∈ i :: S)) by apply list_elem_of_here.
    destruct (bool_decide (i ∈ S)); [exact Hch|].
    simpl. rewrite Nat.eqb_refl, app_nil_r.
    symmetry. apply unwrap_set_fresh_soup, Hfresh.
  - rewrite (bool_decide_cons_ne _ _ _ Hne).
    destruct (bool_decide (j ∈ S)); [exact Hch|].
    simpl. rewrite (proj2 (Nat.eqb_neq j i) Hne), app_nil_r, Hch. reflexivity.
Qed.

Lemma unwrap_set_nil n : unwrap_set [] n = [n].
Proof.
  induction n as [s|name [j attrs] contents IH] using node_ind; [reflexivity|].
  simpl. do 2 f_equal.
  induction IH as [|x l Hx _ IHl]; simpl; [reflexivity|]. rewrite Hx, IHl. reflexivity.
Qed.

Lemma unwrap_set_nil_soup t : flat_map (unwrap_set []) t = t.
Proof.
  induction t as [|x l IHl]; simpl; [reflexivity|].
  rewrite unwrap_set_nil, IHl. reflexivity.
Qed.

Lemma unwrap_fold l S t :
  NoDup (ids t) ->
  fold_left (fun t i => flat_map (unwrap_at i) t) l (flat_map (unwrap_set S) t)
  = flat_map (unwrap_set (rev l ++ S)) t.
Proof.
  intros Hnd. revert S. induction l as [|i l IH]; intros S; simpl; [reflexivity|].
  rewrite flat_map_flat_map.
  rewrite (flat_map_Forall_ext _ (unwrap_set (i :: S))).
  - rewrite IH, <- app_assoc. reflexivity.
  - clear -Hnd. induction t as [|x t IHt]; constructor.
    + apply unwrap_at_set. apply NoDup_ids_cons in Hnd. tauto.
    + apply IHt. apply NoDup_ids_cons in Hnd. tauto.
Qed.

(** *** The tags the search has found *)

Lemma find_all_node_tags c n :
  find_all_node c n
  = map (fun na => na.2.1)
        (filter (fun na : string * obj => div_with_class c na.1 na.2.2 = true)
                (tags_of n)).
Proof.
  induction n as [s|name [j attrs] contents IH] using node_ind; [reflexivity|].
  simpl. rewrite filter_cons. simpl.
  assert (Hch : flat_map (find_all_node c) contents
    = map (fun na => na.2.1)
        (filter (fun na : string * obj => div_with_class c na.1 na.2.2 = true)
                (flat_map tags_of contents))).
  { clear -IH. induction IH as [|x l Hx _ IHl]; simpl; [reflexivity|].
    rewrite filter_app, map_app, Hx, IHl. reflexivity. }
  rewrite Hch. destruct (div_with_class c name attrs) eqn:Hsel.
  - rewrite decide_True by reflexivity. reflexivity.
  - rewrite decide_False by discriminate. reflexivity.
Qed.

Lemma find_all_tags c t :
  find_all c t
  = map (fun na => na.2.1)
        (filter (fun na : string * obj => div_with_class c na.1 na.2.2 = true)
                (all_tags t)).
Proof.
  unfold find_all, all_tags. induction t as [|x l IHl]; simpl; [reflexivity|].
  rewrite filter_app, map_app, find_all_node_tags, IHl. reflexivity.
Qed.

Lemma NoDup_map_inj {A B} (f : A -> B) (l : list A) x y :
  NoDup (map f l) -> x ∈ l -> y ∈ l -> f x = f y -> x = y.
Proof.
  induction l as [|a l IH]; simpl; intros Hnd Hx Hy Hxy; [inversion Hx|].
  apply NoDup_cons in Hnd as [Hfresh Hnd].
  apply elem_of_cons in Hx as [->|Hx]; apply elem_of_cons in Hy as [->|Hy].
  - reflexivity.
  - exfalso. apply Hfresh. rewrite Hxy. apply list_elem_of_fmap_2, Hy.
  - exfalso. apply Hfresh. rewrite <- Hxy. apply list_elem_of_fmap_2, Hx.
  - apply IH; assumption.
Qed.

Lemma find_all_found c l t :
  NoDup (ids t) -> (forall i, i ∈ l <-> i ∈ find_all c t) ->
  Forall (found c l) (all_tags t).
Proof.
  intros Hnd Hl. apply Forall_forall. intros na Hna. unfold found.
  rewrite Hl, find_all_tags. split.
  - intros Hin. apply list_elem_of_fmap in Hin as (na' & Hid & Hin').
    apply list_elem_of_filter in Hin' as [Hsel Hin'].
    rewrite (NoDup_map_inj (fun na => na.2.1) (all_tags t) na na'); auto.
  - intros Hsel. apply list_elem_of_fmap. exists na. split; [reflexivity|].
    apply list_elem_of_filter. auto.
Qed.


Lemma unwrap_set_forget c S n :
  Forall (found c S) (tags_of n) ->
  map forget (unwrap_set S n) = unwrap_node c (forget n).
Proof.
  induction n as [s|name [j attrs] contents IH] using node_ind; [reflexivity|].
  simpl. intros Hall. apply Forall_cons in Hall as [Hhd Hch].
  apply Forall_flat_map in Hch. unfold found in Hhd. simpl in Hhd.
  assert (Hrec : map forget (flat_map (unwrap_set S) contents)
                 = flat_map (unwrap_node c) (map forget contents)).
  { rewrite map_flat_map, flat_map_map.
    clear -IH Hch. induction IH as [|x l Hx _ IHl]; simpl; [reflexivity|].
    apply Forall_cons in Hch as [Hx' Hl']. rewrite (Hx Hx'), (IHl Hl'). reflexivity. }
  destruct (div_with_class c name attrs) eqn:Hsel.
  - rewrite bool_decide_eq_true_2 by (apply Hhd; reflexivity). exact Hrec.
  - rewrite bool_decide_eq_false_2 by (rewrite Hhd; discriminate).
    simpl. rewrite Hrec. reflexivity.
Qed.

(** *** The loops and the passes *)

Lemma found_rev c t :
  NoDup (ids t) -> Forall (found c (rev (find_all c t) ++ [])) (all_tags t).
Proof.
  intros Hnd. apply find_all_found; [exact Hnd|]. intros i.
  rewrite app_nil_r, !list_elem_of_In. symmetry. apply in_rev.
Qed.


(** The unwrap loop over the tags found for a class leaves the tree
    [unwrap_class] computes. *)
Lemma unwrap_loop_forget c t :
  NoDup (ids t) ->
  map forget (unwrap_loop c t) = unwrap_class c (map forget t).
Proof.
  intros Hnd. unfold unwrap_loop, unwrap_class.
  rewrite <- (unwrap_set_nil_soup t) at 2. rewrite (unwrap_fold _ _ _ Hnd), map_flat_map, flat_map_map.
  apply flat_map_Forall_ext.
  pose proof (found_rev c t Hnd) as Hfound. unfold all_tags in Hfound.
  apply Forall_flat_map in Hfound.
  eapply Forall_impl; [exact Hfound|]. intros n. apply unwrap_set_forget.
Qed.

(** *** The identities stay distinct *)


Lemma unwrap_set_tags S n :
  all_tags (unwrap_set S n) `sublist_of` tags_of n.
Proof.
  induction n as [s|name [j attrs] contents IH] using node_ind; [constructor|].
  assert (Hch : all_tags (flat_map (unwrap_set S) contents)
                `sublist_of` flat_map tags_of contents).
  { unfold all_tags. rewrite flat_map_flat_map. apply flat_map_sublist, IH. }
  simpl. destruct (bool_decide (j ∈ S)); simpl.
  - apply sublist_cons, Hch.
  - rewrite app_nil_r. apply sublist_skip, Hch.
Qed.

Lemma NoDup_ids_sublist t t' :
  all_tags t `sublist_of` all_tags t' -> NoDup (ids t') -> NoDup (ids t).
Proof.
  intros Hsub Hnd. unfold ids.
  eapply sublist_NoDup; [exact Hnd|]. apply fmap_sublist, Hsub.
Qed.


Lemma unwrap_loop_ids c t : NoDup (ids t) -> NoDup (ids (unwrap_loop c t)).
Proof.
  intros Hnd. unfold unwrap_loop.
  rewrite <- (unwrap_set_nil_soup t) at 2. rewrite (unwrap_fold _ _ _ Hnd).
  eapply NoDup_ids_sublist; [|exact Hnd].
  unfold all_tags. rewrite flat_map_flat_map.
  apply flat_map_sublist, Forall_forall. intros n _. apply unwrap_set_tags.
Qed.


Lemma unwrap_loops_forget cs t :
  NoDup (ids t) ->
  NoDup (ids (unwrap_loops cs t))
  /\ map forget (unwrap_loops cs t) = unwrap_classes cs (map forget t).
Proof.
  unfold unwrap_loops, unwrap_classes. revert t.
  induction cs as [|c cs IH]; intros t Hnd; simpl; [split; [exact Hnd|reflexivity]|].
  rewrite <- (unwrap_loop_forget c t Hnd). apply IH, unwrap_loop_ids, Hnd.
Qed.


End InPlaceFacts.

(** *** The passes of [clean_html] taken together *)

Module CleanTree.
Import Soup SoupFacts.


Lemma passes_unselected t c :
  c ∈ targeted_classes ->
  Forall (unselected c)
         (all_tags (unwrap_classes classes_to_replace
                      (decompose_classes classes_to_remove t))).
Proof.
  unfold targeted_classes. intros Hc. apply elem_of_app in Hc as [Hc|Hc].
  - eapply sublist_Forall; [apply unwrap_classes_tags|].
    apply decompose_classes_unselected, Hc.
  - apply unwrap_classes_unselected, Hc.
Qed.


(** *** A cleaned tree, printed and read again *)

Lemma reread_strip_unselected c na :
  unselected c na -> unselected c (reread_tag (strip_attrs na)).
Proof.
  destruct na as [name attrs]. unfold unselected, reread_tag, strip_attrs. simpl.
  destruct (String.eqb_spec name "table") as [->|_]; [reflexivity|].
  intros Hun. exact Hun.
Qed.

Lemma reread_strip_settled na : settled (reread_tag (strip_attrs na)).
Proof.
  destruct na as [name attrs]. unfold settled, reread_tag, strip_attrs. simpl.
  intros ->. simpl. unfold table_attrs.
  case_decide as Hid; [left; exact Hid|right; reflexivity].
Qed.

Lemma erase_as_parsed n : erase (as_parsed n) = n.
Proof.
  induction n as [s|name attrs contents IH] using node_ind; [reflexivity|].
  simpl. f_equal. rewrite map_map.
  induction IH as [|x l Hx _ IHl]; simpl; [reflexivity|].
  rewrite Hx, IHl. reflexivity.
Qed.

Lemma erase_strip_table n :
  Forall settled (tags_of n) -> erase (strip_table n) = n.
Proof.
  induction n as [s|name attrs contents IH] using node_ind; [reflexivity|].
  simpl. intros Hall. apply Forall_cons in Hall as [Hhd Hch].
  apply Forall_flat_map in Hch. f_equal.
  - unfold settled in Hhd. simpl in Hhd.
    destruct (String.eqb_spec name "table") as [Hname|_]; [|reflexivity].
    unfold table_attrs. case_decide as Hid; [reflexivity|].
    destruct (Hhd Hname) as [Hsome|Hempty]; [contradiction|].
    symmetry. exact Hempty.
  - rewrite map_map.
    induction IH as [|x l Hx _ IHl]; simpl; [reflexivity|].
    apply Forall_cons in Hch as [Hx' Hl']. rewrite (Hx Hx'), (IHl Hl'). reflexivity.
Qed.

Lemma erase_strip_tables (t : soup dict) :
  Forall settled (all_tags t) -> map erase (map strip_table t) = t.
Proof.
  unfold all_tags. intros Hall. apply Forall_flat_map in Hall.
  induction Hall as [|x l Hx _ IHl]; simpl; [reflexivity|].
  rewrite (erase_strip_table _ Hx), IHl. reflexivity.
Qed.

Lemma erase_as_parsed_soup (t : soup dict) : map erase (map as_parsed t) = t.
Proof.
  induction t as [|x l IH]; simpl; [reflexivity|].
  rewrite erase_as_parsed, IH. reflexivity.
Qed.

(** A tree that has the tags of a cleaned tree, as they are read back,
    is left as it is by the deletion and unwrap passes, and the table
    pass leaves it to print the same. *)
Lemma clean_tree_reread (t t2 : soup dict) :
  all_tags t2 = map reread_tag (all_tags (clean_tree t)) ->
  map erase (clean_tree t2) = map erase (map as_parsed t2).
Proof.
  intros Htags. unfold clean_tree in Htags. rewrite strip_tables_tags in Htags.
  assert (Hun : forall c, c ∈ targeted_classes -> Forall (unselected c) (all_tags t2)).
  { intros c Hc. rewrite Htags. rewrite map_map. apply Forall_map.
    eapply Forall_impl; [apply (passes_unselected t c Hc)|].
    intros na. apply reread_strip_unselected. }
  assert (Hset : Forall settled (all_tags t2)).
  { rewrite Htags, map_map. apply Forall_map, Forall_forall.
    intros na _. apply reread_strip_settled. }
  unfold clean_tree.
  rewrite (decompose_classes_id classes_to_remove t2).
  - rewrite (unwrap_classes_id classes_to_replace t2).
    + rewrite (erase_strip_tables _ Hset), erase_as_parsed_soup. reflexivity.
    + apply Forall_forall. intros c Hc. apply Hun.
      unfold targeted_classes. apply elem_of_app. right. exact Hc.
  - apply Forall_forall. intros c Hc. apply Hun.
    unfold targeted_classes. apply elem_of_app. left. exact Hc.
Qed.

End CleanTree.

(** ** The monad of the methods *)

(** Catching [FileNotFoundError] to raise it again changes nothing. *)
Lemma try_except_reraise {A} (body : M A) (w : world) :
  try_except_FileNotFoundError body raise w = body w.
Proof.
  unfold try_except_FileNotFoundError, raise.
  destruct (body w) as [[[p|k|e|o m]|a] w']; reflexivity.
Qed.

Lemma bind_run {A B} (m : M A) (k : A -> M B) (w : world) :
  (m ≫= k) w = match m w with
               | (inr a, w') => k a w'
               | (inl e, w') => (inl e, w')
               end.
Proof. reflexivity. Qed.

(** ** Worked examples *)

Module Examples.
Import Soup InPlace Samples.

Example replace_without_overlap : PyStr.replace "aa" "b" "aaaaa" = "bba".
Proof. reflexivity. Qed.

Example split_keeps_empty_pieces :
  PyStr.split PyStr.slash "/a//b" = [""; "a"; ""; "b"].
Proof. reflexivity. Qed.

Example path_with_two_slashes :
  PurePath.of_string "//x/./daily_summary.ipynb"
  = PurePath.mk "//" ["x"; "daily_summary.ipynb"].
Proof. reflexivity. Qed.

Example path_with_three_slashes :
  PurePath.of_string "///x//y/" = PurePath.mk "/" ["x"; "y"].
Proof. reflexivity. Qed.

Example folder_of_a_bare_name :
  notebook_folder (Report_init "daily_summary.ipynb" "reports") = ".".
Proof. reflexivity. Qed.

Example report_of_daily_summary :
  (notebook_folder report, notebook report,
   PurePath.to_string (temporary_notebook report),
   PurePath.to_string (report_path report), title report)
  = ("/data", "daily_summary.ipynb", "/tmp/daily_summary.ipynb",
     "/reports/daily_summary.html", "daily summary").
Proof. reflexivity. Qed.

(** Every [.ipynb] of the name is taken out of the title. *)
Example title_of_two_extensions :
  title (Report_init "/data/a.ipynb_b.ipynb" "/reports") = "a b".
Proof. reflexivity. Qed.

(** A line of white space is not an empty line. *)
Example white_space_line_stays :
  let text := "a" +:+ String PyStr.nl (String PyStr.nl (" " +:+ String PyStr.nl "b")) in
  drop_blank_lines text = "a" +:+ String PyStr.nl (" " +:+ String PyStr.nl "b").
Proof. reflexivity. Qed.

Example prompts_found : find_all "prompt" nested_prompts = [1; 2].
Proof. reflexivity. Qed.

(** The inner prompt has left the tree with the outer one when its turn
    comes. *)
Example prompts_deleted :
  map forget (decompose_loop "prompt" nested_prompts)
  = [Tag "div" (class_ ["cell"])
       [Tag "div" (class_ ["cell"]) [NavigableString "out"]]].
Proof. vm_compute. reflexivity. Qed.

Example cells_unwrapped :
  map forget (unwrap_loop "cell" nested_prompts)
  = [Tag "div" (class_ ["prompt"])
       [Tag "div" (class_ ["prompt"; "input_prompt"]) [NavigableString "In"]];
     NavigableString "out"].
Proof. vm_compute. reflexivity. Qed.

Example code_cell_cleaned :
  print_soup (clean_tree code_cell)
  = "<table><tr><td>1</td></tr></table>"
    +:+ "<table class='dataframe' id='t1'><tr><td>2</td></tr></table>"
    +:+ "<span class='cell'>kept</span>".
Proof. vm_compute. reflexivity. Qed.

Example code_cell_read_back :
  read_soup (print_soup (map as_parsed code_cell)) = code_cell.
Proof. vm_compute. reflexivity. Qed.

(** The three methods in turn, on a notebook saved with a kernel the
    host does not have. *)
Example daily_summary_report :
  let w := (clean_html (H := libraries) report exported_world).2 in
  calls w
  = [Preprocess (mkEP 3600 "python3" "immediate" 300) "/data";
     FromNotebookNode (mkExporter [] None false false false) "daily summary"]
  /\ files w !! "/tmp/daily_summary.ipynb" = None
  /\ string_of_list_byte <$> files w !! "/reports/daily_summary.html"
     = Some ("<h1>daily summary</h1>" +:+ String PyStr.nl
             "<table><tr><td>print(1)</td></tr></table>").
Proof. vm_compute. repeat split; reflexivity. Qed.

(** On a host whose locale is Latin-1 a second run changes the report
    again: the two bytes the first run has written for an accented
    letter are read as two characters, and written as four bytes. *)
Example second_run_on_a_Latin1_host :
  let w1 := (clean_html (H := MoreSamples.latin1_host) report
                        (MoreSamples.report_with MoreSamples.accented)).2 in
  let w2 := (clean_html (H := MoreSamples.latin1_host) report w1).2 in
  length <$> files (MoreSamples.report_with MoreSamples.accented)
               !! "/reports/daily_summary.html" = Some 8
  /\ length <$> files w1 !! "/reports/daily_summary.html" = Some 9
  /\ length <$> files w2 !! "/reports/daily_summary.html" = Some 11.
Proof. vm_compute. repeat split. Qed.

(** The cells of a notebook leave a file before one of them fails. *)
Example file_left_by_a_failing_notebook :
  let text := MoreSamples.writing_notebook +:+ String PyStr.nl "raise" in
  let r := execute_notebook (H := libraries) report 4 3600 (world_with text) in
  r.1 = inl (LibraryError "CellExecutionError" "raise")
  /\ files r.2 !! "/data/figures.csv" = Some []
  /\ files r.2 !! "/tmp/daily_summary.ipynb" = None.
Proof. vm_compute. repeat split. Qed.

End Examples.

Lemma clean_html_run `{Libraries} (self : Report) (w : world) :
  clean_html self w
  = match read_text locale_codec (PurePath.to_string (report_path self)) w with
    | (inr bare_html, w') =>
        write_text utf8_codec (PurePath.to_string (report_path self))
                   (clean_text bare_html) w'
    | (inl e, w') => (inl e, w')
    end.
Proof. reflexivity. Qed.

(** * The claims *)

(** C1. The resolver returns the requested name unchanged when it is one
    of the installed kernel names and the fallback [python3] otherwise;
    it is a total function, so it returns in both cases and what it
    returns is an installed name or the fallback. *)
Theorem kernel_resolution (specs : gmap string string) (required_kernel : string) :
  (required_kernel ∈ dom specs -> kernel specs required_kernel = required_kernel)
  /\ (required_kernel ∉ dom specs -> kernel specs required_kernel = "python3")
  /\ (kernel specs required_kernel ∈ dom specs \/ kernel specs required_kernel = "python3").
Proof.
  unfold kernel. destruct (decide (required_kernel ∈ dom specs)) as [Hin|Hout].
  - split; [reflexivity|]. split; [contradiction|]. left. exact Hin.
  - split; [contradiction|]. split; [reflexivity|]. right. reflexivity.
Qed.

Lemma kernel_resolution_witness :
  kernel {[ "python3" := "/usr/share/jupyter/kernels/python3";
            "ir" := "/usr/share/jupyter/kernels/ir" ]} "ir" = "ir"
  /\ kernel {[ "python3" := "/usr/share/jupyter/kernels/python3" ]} "conda-env"
     = "python3".
Proof.
  split.
  - apply (kernel_resolution _ "ir"). set_solver.
  - apply (kernel_resolution _ "conda-env"). set_solver.
Defined.

(** C2, as the code has it.  A second run of [clean_html] succeeds and
    leaves every file as the first run left it, when it reads the report
    as the first run has written it.  The hypotheses, in order: the
    report is there and is read; the cleaned text is encoded; the text
    written as UTF-8 is read back, in text mode and with the encoding of
    the locale, as it was written; the parser finds in that text the
    tags that were printed, a tag left without [attrs] read back with
    none; printing what the parser has read gives the text again; and a
    tag whose [attrs] is [None] prints like a tag without attributes. *)
Theorem clean_html_idempotent `{Libraries}
    (self : Report) (w : world) (b encoded : bytes) (bare_html : string) :
  let target := PurePath.to_string (report_path self) in
  let light_html := clean_text bare_html in
  files w !! target = Some b ->
  text_mode_read locale_codec b = inr bare_html ->
  encode utf8_codec light_html = inr encoded ->
  text_mode_read locale_codec encoded = inr light_html ->
  Soup.all_tags (html_parser light_html)
  = map Soup.reread_tag (Soup.all_tags (Soup.clean_tree (html_parser bare_html))) ->
  drop_blank_lines (soup_str (map Soup.as_parsed (html_parser light_html)))
  = light_html ->
  (forall t t', map Soup.erase t = map Soup.erase t' -> soup_str t = soup_str t') ->
  exists w1, clean_html self w = (inr tt, w1) /\ clean_html self w1 = (inr tt, w1).
Proof.
  intros target light_html Hfile Hbare Henc Hlocale Htags Hprint Hnone.
  exists (mkWorld (<[target := encoded]> (files w)) (calls w)).
  assert (Hagain : clean_text light_html = light_html).
  { unfold clean_text at 1.
    rewrite (Hnone _ _ (CleanTree.clean_tree_reread _ _ Htags)). exact Hprint. }
  split.
  - rewrite clean_html_run. fold target. unfold read_text, write_text.
    rewrite Hfile, Hbare. fold light_html. rewrite Henc. reflexivity.
  - rewrite clean_html_run. fold target. unfold read_text, write_text.
    cbn [files calls]. rewrite lookup_insert_eq, Hlocale, Hagain, Henc.
    cbn [files calls]. rewrite insert_insert_eq. reflexivity.
Qed.

Lemma clean_html_idempotent_witness :
  exists w1, clean_html (H := Samples.libraries) Samples.report Samples.exported_world = (inr tt, w1)
             /\ clean_html (H := Samples.libraries) Samples.report w1 = (inr tt, w1).
Proof.
  eapply (clean_html_idempotent (H := Samples.libraries) Samples.report Samples.exported_world).
  - vm_compute. reflexivity.
  - reflexivity.
  - reflexivity.
  - vm_compute. reflexivity.
  - vm_compute. reflexivity.
  - vm_compute. reflexivity.
  - intros t t' Heq. simpl. unfold Samples.print_soup. rewrite Heq. reflexivity.
Defined.

(** C2, as stated, fails: a report that holds carriage returns written
    as character references is changed by a first run, which writes the
    carriage returns themselves, and changed again by a second run,
    which reads them as line feeds and drops the empty line between
    them. *)
Lemma clean_html_twice_differs :
  exists w1 w2,
    clean_html (H := MoreSamples.refs_host) Samples.report
               (MoreSamples.report_with MoreSamples.carriage_returns)
    = (inr tt, w1)
    /\ clean_html (H := MoreSamples.refs_host) Samples.report w1 = (inr tt, w2)
    /\ files w1 !! "/reports/daily_summary.html"
       = Some (list_byte_of_string
                 ("<p>a" +:+ String PyStr.cr (String PyStr.cr "b</p>")))
    /\ files w2 !! "/reports/daily_summary.html"
       = Some (list_byte_of_string ("<p>a" +:+ String PyStr.nl "b</p>"))
    /\ w2 <> w1.
Proof.
  eexists _, _. split; [vm_compute; reflexivity|].
  split; [vm_compute; reflexivity|].
  split; [vm_compute; reflexivity|].
  split; [vm_compute; reflexivity|].
  intros Heq. apply (f_equal (fun w => files w !! "/reports/daily_summary.html")) in Heq.
  vm_compute in Heq. discriminate.
Qed.




(** C5, at a notebook whose name has [ipynb] before its extension:
    the report is not named after the stem, since [replace] has
    rewritten every [ipynb] of the name, not only the extension. *)
Theorem report_path_replaces_every_ipynb :
  let self := Report_init "/data/ipynb_demo.ipynb" "/out" in
  notebook self = "ipynb_demo" +:+ ".ipynb"
  /\ PurePath.to_string (report_path self) = "/out/html_demo.html"
  /\ PurePath.to_string (report_path self) <> "/out/" +:+ "ipynb_demo" +:+ ".html".
Proof.
  intros self. split; [reflexivity|]. split; [reflexivity|]. discriminate.
Qed.

(** C6, at a notebook whose name holds [.ipynb] twice: the default
    title, which the exporter is given when the metadata have no title,
    is not the file name without its extension and with spaces for
    underscores, since [replace] has taken every [.ipynb] out of the
    name, not only the extension. *)
Theorem title_strips_every_ipynb :
  let self := Report_init "/data/daily_summary.ipynb.ipynb" "/out" in
  notebook self = "daily_summary.ipynb" +:+ ".ipynb"
  /\ title self = "daily summary"
  /\ title self <> PyStr.underscores_to_spaces "daily_summary.ipynb"
  /\ (forall nb, meta_title (nb_metadata nb) = None ->
      resolve_title self nb = "daily summary").
Proof.
  intros self. split; [reflexivity|]. split; [reflexivity|]. split; [discriminate|].
  intros nb Hmeta. unfold resolve_title. rewrite Hmeta. reflexivity.
Qed.

(** C7. Running the unwrap passes for the nine wrapper classes in any
    permuted order leaves the same tree as running them in the order of
    the code: so it is for the passes as [Soup.unwrap_classes] computes
    them, and for the loops run in place on a tree of tag objects. *)
Theorem unwrap_order_independent (order : list string) :
  order ≡ₚ Soup.classes_to_replace ->
  (forall t : Soup.soup Soup.dict,
     Soup.unwrap_classes order t = Soup.unwrap_classes Soup.classes_to_replace t)
  /\ (forall t : Soup.soup InPlace.obj,
        NoDup (InPlace.ids t) ->
        map InPlace.forget (InPlace.unwrap_loops order t)
        = map InPlace.forget (InPlace.unwrap_loops Soup.classes_to_replace t)).
Proof.
  intros Horder.
  assert (Hpasses : forall t : Soup.soup Soup.dict,
            Soup.unwrap_classes order t
            = Soup.unwrap_classes Soup.classes_to_replace t).
  { intros t. unfold Soup.unwrap_classes.
    apply fold_left_commute_Permutation; [|exact Horder].
    intros s c1 c2. apply SoupFacts.unwrap_class_commute. }
  split; [exact Hpasses|]. intros t Hnd.
  rewrite (proj2 (InPlaceFacts.unwrap_loops_forget order t Hnd)).
  rewrite (proj2 (InPlaceFacts.unwrap_loops_forget Soup.classes_to_replace t Hnd)).
  apply Hpasses.
Qed.

Lemma unwrap_order_independent_witness :
  Soup.unwrap_classes (rev Soup.classes_to_replace) Samples.code_cell
  = Soup.unwrap_classes Soup.classes_to_replace Samples.code_cell
  /\ map InPlace.forget
         (InPlace.unwrap_loops (rev Soup.classes_to_replace) Samples.nested_prompts)
     = map InPlace.forget
           (InPlace.unwrap_loops Soup.classes_to_replace Samples.nested_prompts).
Proof.
  pose proof (unwrap_order_independent (rev Soup.classes_to_replace)
                (Permutation_sym (Permutation_rev Soup.classes_to_replace)))
    as [Hpasses Hloops].
  split; [apply Hpasses|]. apply Hloops.
  apply (bool_decide_unpack _). vm_compute. exact I.
Defined.

(** C8. [notebook_to_report] succeeds exactly when the executed notebook
    is there and is read, the exporter returns a body and the body is
    encoded; the files are then those of before with the body at the
    report path and, after that, without the temporary notebook.  After
    a success there is no file at the temporary path. *)
Theorem notebook_to_report_success `{Libraries}
    (self : Report) (version : Z) (template_path : option string) (w w' : world) :
  let temp := PurePath.to_string (temporary_notebook self) in
  let target := PurePath.to_string (report_path self) in
  let exporter := configure_exporter template_path in
  (notebook_to_report self version template_path w = (inr tt, w') <->
   exists b text nb body encoded,
     files w !! temp = Some b
     /\ text_mode_read locale_codec b = inr text
     /\ nbformat_reads text version = inr nb
     /\ from_notebook_node exporter nb (resolve_title self nb) = inr body
     /\ encode locale_codec body = inr encoded
     /\ w' = mkWorld (delete temp (<[target := encoded]> (files w)))
                     (calls w ++ [FromNotebookNode exporter (resolve_title self nb)]))
  /\ (notebook_to_report self version template_path w = (inr tt, w') ->
      files w' !! temp = None).
Proof.
  intros temp target exporter.
  assert (Hiff : notebook_to_report self version template_path w = (inr tt, w') <->
    exists b text nb body encoded,
     files w !! temp = Some b
     /\ text_mode_read locale_codec b = inr text
     /\ nbformat_reads text version = inr nb
     /\ from_notebook_node exporter nb (resolve_title self nb) = inr body
     /\ encode locale_codec body = inr encoded
     /\ w' = mkWorld (delete temp (<[target := encoded]> (files w)))
                     (calls w ++ [FromNotebookNode exporter (resolve_title self nb)])).
  { unfold notebook_to_report. rewrite try_except_reraise, bind_run.
    fold temp target exporter. unfold read_text at 1.
    destruct (files w !! temp) as [b|] eqn:Hfile; cycle 1.
    { split; [discriminate|]. intros (b & ? & ? & ? & ? & Hb & _). discriminate. }
    destruct (text_mode_read locale_codec b) as [e|text] eqn:Htext.
    { split; [discriminate|].
      intros (b' & ? & ? & ? & ? & Hb & Ht & _). congruence. }
    rewrite bind_run. unfold lift at 1.
    destruct (nbformat_reads text version) as [e|nb] eqn:Hnb.
    { split; [discriminate|].
      intros (b' & ? & ? & ? & ? & Hb & Ht & Hn & _). congruence. }
    rewrite bind_run. unfold log at 1. rewrite bind_run. unfold lift at 1.
    destruct (from_notebook_node exporter nb (resolve_title self nb))
      as [e|body] eqn:Hbody.
    { split; [discriminate|].
      intros (b' & ? & ? & ? & ? & Hb & Ht & Hn & Hr & _). congruence. }
    rewrite bind_run. unfold write_text at 1. cbn [files calls].
    destruct (encode locale_codec body) as [e|encoded] eqn:Henc.
    { split; [discriminate|].
      intros (b' & ? & ? & ? & ? & Hb & Ht & Hn & Hr & He & _). congruence. }
    unfold unlink. cbn [files calls].
    assert (Hthere : is_Some (<[target := encoded]> (files w) !! temp)).
    { destruct (decide (target = temp)) as [->|Hne].
      - rewrite lookup_insert_eq. eauto.
      - rewrite lookup_insert_ne by exact Hne. rewrite Hfile. eauto. }
    destruct Hthere as [b' Hb']. rewrite Hb'. split.
    - intros Heq. exists b, text, nb, body, encoded.
      repeat split; try assumption. congruence.
    - intros (b0 & t0 & n0 & d0 & e0 & Hb & Ht & Hn & Hr & He & ->).
      repeat f_equal; congruence. }
  split; [exact Hiff|].
  intros Hok. apply Hiff in Hok as (b & text & nb & body & encoded & _ & _ & _ & _ & _ & ->).
  cbn [files]. apply lookup_delete_eq.
Qed.

Lemma notebook_to_report_success_witness :
  notebook_to_report (H := Samples.libraries) Samples.report 4 None
                     Samples.executed_world
  = (inr tt, Samples.exported_world)
  /\ files Samples.exported_world !! "/tmp/daily_summary.ipynb" = None.
Proof.
  split.
  - reflexivity.
  - apply (proj2 (notebook_to_report_success (H := Samples.libraries)
                    Samples.report 4 None
                    Samples.executed_world Samples.exported_world)).
    reflexivity.
Defined.

(** C9. A missing notebook file makes [execute_notebook] raise
    [FileNotFoundError] for its path, in an unchanged world.  When the
    execution of the cells raises, [execute_notebook] raises that very
    exception; the preprocessor has been called once, and
    [execute_notebook] itself has written or removed no file: the files
    are as the cells have left them, so that whatever is at the
    temporary path stays there. *)
Theorem execute_notebook_failure_propagates `{Libraries}
    (self : Report) (version timeout : Z) (w : world) :
  (files w !! notebook_path self = None ->
   execute_notebook self version timeout w
   = (inl (FileNotFoundError (notebook_path self)), w))
  /\ (forall b text nb required e fs,
        files w !! notebook_path self = Some b ->
        text_mode_read utf8_codec b = inr text ->
        nbformat_reads text version = inr nb ->
        kernelspec_name nb = inr required ->
        preprocess (mkEP timeout (kernel find_kernel_specs required) "immediate" 300)
                   (notebook_folder self) nb (files w) = (inl e, fs) ->
        execute_notebook self version timeout w
        = (inl e,
           mkWorld fs
                   (calls w ++ [Preprocess
                                  (mkEP timeout (kernel find_kernel_specs required)
                                        "immediate" 300)
                                  (notebook_folder self)]))).
Proof.
  split.
  - intros Hmissing. unfold execute_notebook.
    rewrite bind_run, try_except_reraise, bind_run.
    unfold read_text. rewrite Hmissing. reflexivity.
  - intros b text nb required e fs Hfile Htext Hnb Hreq Hfail.
    unfold execute_notebook.
    rewrite bind_run, try_except_reraise, bind_run.
    unfold read_text at 1. rewrite Hfile, Htext.
    unfold lift at 1. rewrite Hnb.
    rewrite bind_run. unfold lift at 1. rewrite Hreq.
    rewrite bind_run. unfold log at 1. rewrite bind_run.
    unfold lift_files at 1. cbn [files calls]. rewrite Hfail. reflexivity.
Qed.

Lemma execute_notebook_failure_witness :
  execute_notebook (H := Samples.libraries) Samples.report 4 3600
                   (Samples.world_with Samples.failing_notebook)
  = (inl (LibraryError "CellExecutionError" "raise"),
     mkWorld (files (Samples.world_with Samples.failing_notebook))
             [Preprocess (mkEP 3600 "python3" "immediate" 300) "/data"]).
Proof.
  refine (proj2 (execute_notebook_failure_propagates (H := Samples.libraries)
                   Samples.report 4 3600
                   (Samples.world_with Samples.failing_notebook))
                _ Samples.failing_notebook _ "python3"
                (LibraryError "CellExecutionError" "raise") _ _ _ _ _ _);
    vm_compute; reflexivity.
Defined.




(** * More on the passes, the paths and the methods *)

(** ** The passes and the one traversal *)

Module OnePassFacts.
Import Soup SoupFacts OnePass.

Lemma decompose_node_any c cs n :
  flat_map (decompose_any cs) (decompose_node c n) = decompose_any (c :: cs) n.
Proof.
  induction n as [s|name attrs contents IH] using node_ind; [reflexivity|].
  simpl. destruct (div_with_class c name attrs); simpl; [reflexivity|].
  destruct (selected_by cs name attrs); [reflexivity|].
  rewrite app_nil_r, flat_map_flat_map. do 2 f_equal.
  apply flat_map_Forall_ext, IH.
Qed.

Lemma decompose_any_nil n : decompose_any [] n = [n].
Proof.
  induction n as [s|name attrs contents IH] using node_ind; [reflexivity|].
  simpl. do 2 f_equal.
  induction IH as [|x l Hx _ IHl]; simpl; [reflexivity|]. rewrite Hx, IHl. reflexivity.
Qed.

Lemma decompose_classes_any cs t :
  decompose_classes cs t = flat_map (decompose_any cs) t.
Proof.
  unfold decompose_classes. revert t.
  induction cs as [|c cs IH]; intros t; simpl.
  - induction t as [|x l IHl]; simpl; [reflexivity|].
    rewrite decompose_any_nil, <- IHl. reflexivity.
  - rewrite IH. unfold decompose_class. rewrite flat_map_flat_map.
    apply flat_map_ext, decompose_node_any.
Qed.

Lemma unwrap_node_any c cs n :
  flat_map (unwrap_any cs) (unwrap_node c n) = unwrap_any (c :: cs) n.
Proof.
  induction n as [s|name attrs contents IH] using node_ind; [reflexivity|].
  assert (Hch : flat_map (unwrap_any cs) (flat_map (unwrap_node c) contents)
                = flat_map (unwrap_any (c :: cs)) contents).
  { rewrite flat_map_flat_map. apply flat_map_Forall_ext, IH. }
  simpl. destruct (div_with_class c name attrs); simpl; [exact Hch|].
  destruct (selected_by cs name attrs); rewrite app_nil_r; [exact Hch|].
  rewrite Hch. reflexivity.
Qed.

Lemma unwrap_any_nil n : unwrap_any [] n = [n].
Proof.
  induction n as [s|name attrs contents IH] using node_ind; [reflexivity|].
  simpl. do 2 f_equal.
  induction IH as [|x l Hx _ IHl]; simpl; [reflexivity|]. rewrite Hx, IHl. reflexivity.
Qed.

Lemma unwrap_classes_any cs t :
  unwrap_classes cs t = flat_map (unwrap_any cs) t.
Proof.
  unfold unwrap_classes. revert t.
  induction cs as [|c cs IH]; intros t; simpl.
  - induction t as [|x l IHl]; simpl; [reflexivity|].
    rewrite unwrap_any_nil, <- IHl. reflexivity.
  - rewrite IH. unfold unwrap_class. rewrite flat_map_flat_map.
    apply flat_map_ext, unwrap_node_any.
Qed.

Lemma selected_by_name cs name attrs :
  selected_by cs name attrs = true -> name = "div".
Proof.
  unfold selected_by. intros Hsel. apply existsb_exists in Hsel as (c & _ & Hc).
  eapply div_with_class_name, Hc.
Qed.

(** A [div] the deletion passes have left is one they do not select. *)
Lemma clean_node_passes n :
  map strip_table
      (flat_map (unwrap_any classes_to_replace)
                (decompose_any classes_to_remove n))
  = clean_node n.
Proof.
  induction n as [s|name attrs contents IH] using node_ind; [reflexivity|].
  assert (Hch : map strip_table
                  (flat_map (unwrap_any classes_to_replace)
                     (flat_map (decompose_any classes_to_remove) contents))
                = flat_map clean_node contents).
  { rewrite flat_map_flat_map, map_flat_map. apply flat_map_Forall_ext, IH. }
  cbn [decompose_any clean_node].
  destruct (selected_by classes_to_remove name attrs); [reflexivity|].
  cbn [flat_map unwrap_any]. rewrite app_nil_r.
  destruct (selected_by classes_to_replace name attrs); [exact Hch|].
  cbn [map strip_table]. rewrite Hch. reflexivity.
Qed.

(** The eleven passes and the table pass are one traversal. *)
Lemma clean_tree_one_pass t : clean_tree t = flat_map clean_node t.
Proof.
  unfold clean_tree. rewrite decompose_classes_any, unwrap_classes_any.
  rewrite flat_map_flat_map, map_flat_map.
  apply flat_map_ext, clean_node_passes.
Qed.

Lemma selected_by_Permutation cs cs' name attrs :
  cs ≡ₚ cs' -> selected_by cs name attrs = selected_by cs' name attrs.
Proof.
  unfold selected_by. induction 1 as [|x l l' _ IH|x y l|l l' l'' _ IH1 _ IH2]; simpl.
  - reflexivity.
  - rewrite IH. reflexivity.
  - destruct (div_with_class x name attrs), (div_with_class y name attrs); reflexivity.
  - congruence.
Qed.

Lemma decompose_any_Permutation cs cs' n :
  cs ≡ₚ cs' -> decompose_any cs n = decompose_any cs' n.
Proof.
  intros Hp. induction n as [s|name attrs contents IH] using node_ind; [reflexivity|].
  simpl. rewrite (selected_by_Permutation _ _ _ _ Hp).
  rewrite (flat_map_Forall_ext _ _ _ IH). reflexivity.
Qed.

(** *** Strings and other tags *)

Lemma strings_app {A} (t1 t2 : soup A) : strings (t1 ++ t2) = strings t1 ++ strings t2.
Proof. unfold strings. apply flat_map_app. Qed.

Lemma unwrap_node_strings c n : strings (unwrap_node c n) = strings_of n.
Proof.
  induction n as [s|name attrs contents IH] using node_ind; [reflexivity|].
  assert (Hch : strings (flat_map (unwrap_node c) contents)
                = flat_map strings_of contents).
  { unfold strings. rewrite flat_map_flat_map. apply flat_map_Forall_ext, IH. }
  simpl. destruct (div_with_class c name attrs); [exact Hch|].
  unfold strings in *. simpl. rewrite app_nil_r. exact Hch.
Qed.

Lemma unwrap_class_strings c t : strings (unwrap_class c t) = strings t.
Proof.
  unfold strings, unwrap_class. rewrite flat_map_flat_map.
  apply flat_map_ext. intros n. apply unwrap_node_strings.
Qed.

Lemma unwrap_classes_strings cs t : strings (unwrap_classes cs t) = strings t.
Proof.
  unfold unwrap_classes. revert t.
  induction cs as [|c cs IH]; intros t; simpl; [reflexivity|].
  rewrite IH. apply unwrap_class_strings.
Qed.

Lemma decompose_node_strings c n :
  strings (decompose_node c n) `sublist_of` strings_of n.
Proof.
  induction n as [s|name attrs contents IH] using node_ind; [reflexivity|].
  simpl. destruct (div_with_class c name attrs); [apply sublist_nil_l|].
  unfold strings in *. simpl. rewrite app_nil_r, flat_map_flat_map.
  apply flat_map_sublist, IH.
Qed.

Lemma decompose_class_strings c t :
  strings (decompose_class c t) `sublist_of` strings t.
Proof.
  unfold strings, decompose_class. rewrite flat_map_flat_map.
  apply flat_map_sublist, Forall_forall. intros n _. apply decompose_node_strings.
Qed.

Lemma decompose_classes_strings cs t :
  strings (decompose_classes cs t) `sublist_of` strings t.
Proof.
  unfold decompose_classes. revert t.
  induction cs as [|c cs IH]; intros t; simpl; [reflexivity|].
  etrans; [apply IH|apply decompose_class_strings].
Qed.

Lemma strip_table_strings n : strings_of (strip_table n) = strings_of n.
Proof.
  induction n as [s|name attrs contents IH] using node_ind; [reflexivity|].
  simpl. rewrite flat_map_map. apply flat_map_Forall_ext, IH.
Qed.

Lemma strip_tables_strings (t : soup dict) : strings (map strip_table t) = strings t.
Proof.
  unfold strings. rewrite flat_map_map. apply flat_map_ext, strip_table_strings.
Qed.

Lemma other_tags_app {A} (t1 t2 : soup A) :
  other_tags (t1 ++ t2) = other_tags t1 ++ other_tags t2.
Proof. unfold other_tags, all_tags. rewrite flat_map_app, filter_app. reflexivity. Qed.

Lemma other_tags_flat_map {A B} (f : B -> soup A) (l : list B) :
  other_tags (flat_map f l) = flat_map (fun x => other_tags (f x)) l.
Proof.
  induction l as [|x l IH]; simpl; [reflexivity|].
  rewrite other_tags_app, IH. reflexivity.
Qed.

Lemma other_tags_Tag {A} name (attrs : A) contents :
  other_tags [Tag name attrs contents]
  = (if String.eqb name "div" then [] else [(name, attrs)]) ++ other_tags contents.
Proof.
  unfold other_tags, all_tags. simpl. rewrite app_nil_r, filter_cons.
  destruct (String.eqb_spec name "div") as [Hname|Hname]; case_decide; simpl in *;
    congruence.
Qed.

Lemma unwrap_node_other_tags c n : other_tags (unwrap_node c n) = other_tags [n].
Proof.
  induction n as [s|name attrs contents IH] using node_ind; [reflexivity|].
  assert (Hch : other_tags (flat_map (unwrap_node c) contents) = other_tags contents).
  { rewrite other_tags_flat_map. clear -IH.
    induction IH as [|x l Hx _ IHl]; simpl; [reflexivity|].
    rewrite Hx, IHl. symmetry. apply (other_tags_app [x] l). }
  simpl. destruct (div_with_class c name attrs) eqn:Hsel.
  - rewrite other_tags_Tag, Hch, (div_with_class_name _ _ _ Hsel). reflexivity.
  - rewrite !other_tags_Tag, Hch. reflexivity.
Qed.

Lemma unwrap_class_other_tags c t : other_tags (unwrap_class c t) = other_tags t.
Proof.
  unfold unwrap_class. rewrite other_tags_flat_map.
  induction t as [|x l IHl]; simpl; [reflexivity|].
  rewrite unwrap_node_other_tags, IHl. symmetry. apply (other_tags_app [x] l).
Qed.

Lemma unwrap_classes_other_tags cs t :
  other_tags (unwrap_classes cs t) = other_tags t.
Proof.
  unfold unwrap_classes. revert t.
  induction cs as [|c cs IH]; intros t; simpl; [reflexivity|].
  rewrite IH. apply unwrap_class_other_tags.
Qed.

Lemma other_tags_strip (t : soup dict) :
  other_tags (map strip_table t) = map strip_attrs (other_tags t).
Proof.
  unfold other_tags. rewrite strip_tables_tags.
  induction (all_tags t) as [|na l IH]; [reflexivity|].
  cbn [map]. rewrite !filter_cons, IH.
  destruct na as [name attrs]. cbn [strip_attrs fst].
  repeat case_decide; simpl in *; try contradiction; reflexivity.
Qed.

(** *** Cleaning what has been cleaned *)

Lemma table_attrs_erase attrs :
  table_attrs (erase_attrs (table_attrs attrs)) = table_attrs attrs.
Proof.
  unfold table_attrs. destruct (decide (is_Some (attrs !! "id"))) as [Hid|Hid]; simpl.
  - rewrite decide_True by exact Hid. reflexivity.
  - rewrite decide_False; [reflexivity|]. rewrite lookup_empty. apply is_Some_None.
Qed.

Lemma selected_by_other cs name attrs :
  name <> "div" -> selected_by cs name attrs = false.
Proof.
  intros Hname. destruct (selected_by cs name attrs) eqn:Hsel; [|reflexivity].
  apply selected_by_name in Hsel. contradiction.
Qed.

Lemma clean_node_again n :
  flat_map clean_node (map erase (clean_node n)) = clean_node n.
Proof.
  induction n as [s|name attrs contents IH] using node_ind; [reflexivity|].
  assert (Hch : flat_map clean_node (map erase (flat_map clean_node contents))
                = flat_map clean_node contents).
  { rewrite map_flat_map, flat_map_flat_map. apply flat_map_Forall_ext, IH. }
  cbn [clean_node].
  destruct (selected_by classes_to_remove name attrs) eqn:Hrem; [reflexivity|].
  destruct (selected_by classes_to_replace name attrs) eqn:Hrep; [exact Hch|].
  cbn [map erase flat_map clean_node]. rewrite app_nil_r.
  destruct (String.eqb_spec name "table") as [->|Hname].
  - rewrite !selected_by_other by discriminate.
    rewrite table_attrs_erase, Hch. reflexivity.
  - change (erase_attrs (Some attrs)) with attrs.
    rewrite Hrem, Hrep, Hch. reflexivity.
Qed.

End OnePassFacts.

(** ** The constructor *)

Module ReportFacts.
Import PyStr PyStrFacts PurePathFacts.

Lemma underscores_to_spaces_clean s :
  has_char "_" (underscores_to_spaces s) = false.
Proof.
  induction s as [|c s IH]; [reflexivity|].
  simpl. rewrite IH. destruct (Ascii.eqb c "_") eqn:Hc; [reflexivity|].
  rewrite Hc. reflexivity.
Qed.

Lemma prefix_slash_no_slash base :
  has_char slash base = false -> String.prefix "/" base = false.
Proof.
  destruct base as [|c base]; [reflexivity|].
  cbn [has_char]. intros Hbase. apply orb_false_elim in Hbase as [Hc _].
  change (String.prefix "/" (String c base))
    with (if ascii_dec "/" c then String.prefix "" base else false).
  destruct (ascii_dec "/" c) as [<-|_]; [discriminate|reflexivity].
Qed.

(** A bare file name is a path of one component. *)
Lemma of_string_name base :
  has_char slash base = false -> PurePath.keep_part base = true ->
  PurePath.of_string base = PurePath.mk "" [base].
Proof.
  intros Hbase Hkeep. unfold PurePath.of_string, PurePath.splitroot.
  rewrite (prefix_slash_no_slash _ Hbase), (split_no_sep _ _ Hbase).
  simpl. rewrite Hkeep. reflexivity.
Qed.

Lemma temporary_notebook_of_name dir base report_folder :
  has_char slash base = false -> PurePath.keep_part base = true ->
  temporary_notebook (Report_init (dir +:+ String slash base) report_folder)
  = PurePath.mk "/" ["tmp"; base].
Proof.
  intros Hbase Hkeep. unfold Report_init. cbn [temporary_notebook].
  rewrite (name_of_string _ _ Hbase Hkeep), (of_string_name _ Hbase Hkeep).
  reflexivity.
Qed.

Lemma report_path_without_ipynb dir base report_folder :
  has_char slash base = false -> PurePath.keep_part base = true ->
  contains "ipynb" base = false ->
  report_path (Report_init (dir +:+ String slash base) report_folder)
  = PurePath.joinpath (PurePath.of_string report_folder) (PurePath.mk "" [base]).
Proof.
  intros Hbase Hkeep Hno. unfold Report_init. cbn [report_path].
  rewrite (name_of_string _ _ Hbase Hkeep), (replace_absent _ _ _ Hno).
  rewrite (of_string_name _ Hbase Hkeep). reflexivity.
Qed.

End ReportFacts.

(** ** Lines *)

Module LinesFacts.
Import PyStr PyStrFacts.

(** Splitting at a character and joining with it gives the text again. *)
Lemma join_split sep s : join (String sep "") (split sep s) = s.
Proof.
  unfold join. induction s as [|c s IH]; [reflexivity|].
  cbn [split].
  destruct (split sep s) as [|l ls] eqn:Hs; [destruct (split_not_nil _ _ Hs)|].
  destruct (Ascii.eqb_spec c sep) as [->|_].
  - change (String.concat (String sep "") ("" :: l :: ls))
      with (String sep (String.concat (String sep "") (l :: ls))).
    rewrite IH. reflexivity.
  - destruct ls as [|l' ls].
    + simpl in IH |- *. rewrite IH. reflexivity.
    + change (String.concat (String sep "") (String c l :: l' :: ls))
        with (String c (String.concat (String sep "") (l :: l' :: ls))).
      rewrite IH. reflexivity.
Qed.

Lemma filter_all_true {A} (f : A -> bool) l :
  Forall (fun x => f x = true) l -> List.filter f l = l.
Proof.
  induction 1 as [|x l Hx _ IH]; simpl; [reflexivity|]. rewrite Hx, IH. reflexivity.
Qed.

End LinesFacts.

(** ** The methods, step by step *)

Lemma execute_notebook_run `{Libraries}
    (self : Report) (version timeout : Z) (w : world) :
  execute_notebook self version timeout w
  = match files w !! notebook_path self with
    | None => (inl (FileNotFoundError (notebook_path self)), w)
    | Some b =>
        match text_mode_read utf8_codec b with
        | inl e => (inl e, w)
        | inr text =>
            match nbformat_reads text version with
            | inl e => (inl e, w)
            | inr nb =>
                match kernelspec_name nb with
                | inl e => (inl e, w)
                | inr required =>
                    let ep := mkEP timeout (kernel find_kernel_specs required)
                                   "immediate" 300 in
                    let called := calls w ++ [Preprocess ep (notebook_folder self)] in
                    match preprocess ep (notebook_folder self) nb (files w) with
                    | (inl e, fs) => (inl e, mkWorld fs called)
                    | (inr executed, fs) =>
                        write_text utf8_codec
                          (PurePath.to_string (temporary_notebook self))
                          (nbformat_writes executed)
                          (mkWorld fs called)
                    end
                end
            end
        end
    end.
Proof.
  unfold execute_notebook. rewrite bind_run, try_except_reraise, bind_run.
  unfold read_text at 1.
  destruct (files w !! notebook_path self) as [b|]; [|reflexivity].
  destruct (text_mode_read utf8_codec b) as [e|text]; [reflexivity|].
  unfold lift at 1.
  destruct (nbformat_reads text version) as [e|nb]; [reflexivity|].
  rewrite bind_run. unfold lift at 1.
  destruct (kernelspec_name nb) as [e|required]; [reflexivity|].
  rewrite bind_run. unfold log at 1. rewrite bind_run. unfold lift_files at 1.
  cbv zeta. cbn [files calls].
  destruct (preprocess _ (notebook_folder self) nb (files w)) as [[e|executed] fs];
    reflexivity.
Qed.

Lemma notebook_to_report_run `{Libraries}
    (self : Report) (version : Z) (template_path : option string) (w : world) :
  let temp := PurePath.to_string (temporary_notebook self) in
  let target := PurePath.to_string (report_path self) in
  let exporter := configure_exporter template_path in
  notebook_to_report self version template_path w
  = match files w !! temp with
    | None => (inl (FileNotFoundError temp), w)
    | Some b =>
        match text_mode_read locale_codec b with
        | inl e => (inl e, w)
        | inr text =>
            match nbformat_reads text version with
            | inl e => (inl e, w)
            | inr nb =>
                let title := resolve_title self nb in
                let called := calls w ++ [FromNotebookNode exporter title] in
                match from_notebook_node exporter nb title with
                | inl e => (inl e, mkWorld (files w) called)
                | inr body =>
                    match encode locale_codec body with
                    | inl e => (inl e, mkWorld (<[target := []]> (files w)) called)
                    | inr encoded =>
                        (inr tt,
                         mkWorld (delete temp (<[target := encoded]> (files w))) called)
                    end
                end
            end
        end
    end.
Proof.
  intros temp target exporter.
  unfold notebook_to_report. rewrite try_except_reraise, bind_run.
  fold temp target exporter. unfold read_text at 1.
  destruct (files w !! temp) as [b|] eqn:Hfile; [|reflexivity].
  destruct (text_mode_read locale_codec b) as [e|text]; [reflexivity|].
  rewrite bind_run. unfold lift at 1.
  destruct (nbformat_reads text version) as [e|nb]; [reflexivity|].
  rewrite bind_run. unfold log at 1. rewrite bind_run. unfold lift at 1. cbv zeta.
  destruct (from_notebook_node exporter nb (resolve_title self nb)) as [e|body];
    [reflexivity|].
  rewrite bind_run. unfold write_text at 1. cbn [files calls].
  destruct (encode locale_codec body) as [e|encoded]; [reflexivity|].
  unfold unlink. cbn [files calls].
  assert (Hthere : is_Some (<[target := encoded]> (files w) !! temp)).
  { destruct (decide (target = temp)) as [->|Hne].
    - rewrite lookup_insert_eq. eauto.
    - rewrite lookup_insert_ne by exact Hne. rewrite Hfile. eauto. }
  destruct Hthere as [b' Hb']. rewrite Hb'. reflexivity.
Qed.


(** * Further properties *)

(** ** The kernel *)

(** X1. [kernel] does not look whether the fallback is installed: the
    name it returns is an installed one exactly when the required name
    or [python3] is installed.  Resolving a resolved name changes
    nothing. *)
Theorem kernel_fallback_unchecked (specs : gmap string string) (required_kernel : string) :
  (kernel specs required_kernel ∈ dom specs
   <-> required_kernel ∈ dom specs \/ "python3" ∈ dom specs)
  /\ kernel specs (kernel specs required_kernel) = kernel specs required_kernel.
Proof.
  unfold kernel.
  destruct (decide (required_kernel ∈ dom specs)) as [Hin|Hout].
  - split; [tauto|]. rewrite decide_True by exact Hin. reflexivity.
  - split; [tauto|]. destruct (decide ("python3" ∈ dom specs)); reflexivity.
Qed.

(** ** The paths and the title of a report *)

(** X2. Whatever the notebook path and the report folder, the default
    title of a report holds no underscore. *)
Theorem title_has_no_underscore (notebook_path report_folder : string) :
  PyStr.has_char "_" (title (Report_init notebook_path report_folder)) = false.
Proof.
  unfold Report_init. cbn [title].
  rewrite PyStrFacts.replace_underscores. apply ReportFacts.underscores_to_spaces_clean.
Qed.

(** X3. The temporary notebook of a notebook [dir/base] is [/tmp/base]:
    neither the folder of the notebook nor the report folder has a part
    in it, so that two notebooks of the same file name in two folders
    share their temporary notebook. *)
Theorem temporary_notebook_ignores_folders (dir dir' base folder folder' : string) :
  PyStr.has_char PyStr.slash base = false ->
  PurePath.keep_part base = true ->
  PurePath.to_string
    (temporary_notebook (Report_init (dir +:+ String PyStr.slash base) folder))
  = "/tmp/" +:+ base
  /\ temporary_notebook (Report_init (dir +:+ String PyStr.slash base) folder)
     = temporary_notebook (Report_init (dir' +:+ String PyStr.slash base) folder').
Proof.
  intros Hbase Hkeep.
  rewrite !(ReportFacts.temporary_notebook_of_name _ _ _ Hbase Hkeep).
  split; reflexivity.
Qed.

Lemma temporary_notebook_ignores_folders_witness :
  PurePath.to_string
    (temporary_notebook (Report_init "/data/daily_summary.ipynb" "/reports"))
  = "/tmp/daily_summary.ipynb"
  /\ temporary_notebook (Report_init "/data/daily_summary.ipynb" "/reports")
     = temporary_notebook (Report_init "/home/me/daily_summary.ipynb" "/out").
Proof.
  apply (temporary_notebook_ignores_folders
           "/data" "/home/me" "daily_summary.ipynb" "/reports" "/out");
    reflexivity.
Defined.

(** X4. When the file name of the notebook does not hold [ipynb], the
    report is named as the notebook, in any report folder; with [/tmp] as
    the report folder the report path is then the path of the temporary
    notebook. *)
Theorem report_named_as_notebook_without_ipynb (dir base : string) :
  PyStr.has_char PyStr.slash base = false ->
  PurePath.keep_part base = true ->
  PyStr.contains "ipynb" base = false ->
  (forall report_folder,
     PurePath.name (report_path (Report_init (dir +:+ String PyStr.slash base) report_folder))
     = base)
  /\ report_path (Report_init (dir +:+ String PyStr.slash base) "/tmp")
     = temporary_notebook (Report_init (dir +:+ String PyStr.slash base) "/tmp").
Proof.
  intros Hbase Hkeep Hno. split.
  - intros report_folder.
    rewrite (ReportFacts.report_path_without_ipynb _ _ _ Hbase Hkeep Hno).
    unfold PurePath.joinpath, PurePath.name. simpl. apply List.last_last.
  - rewrite (ReportFacts.report_path_without_ipynb _ _ _ Hbase Hkeep Hno).
    rewrite (ReportFacts.temporary_notebook_of_name _ _ _ Hbase Hkeep). reflexivity.
Qed.

Lemma report_named_as_notebook_without_ipynb_witness :
  PurePath.name (report_path (Report_init "/data/notes" "/reports")) = "notes"
  /\ report_path MoreSamples.notes = temporary_notebook MoreSamples.notes.
Proof.
  destruct (report_named_as_notebook_without_ipynb "/data" "notes")
    as [Hname Hsame]; [reflexivity..|].
  split; [apply (Hname "/reports")|exact Hsame].
Defined.

(** ** Executing the notebook *)

(** X5. When [execute_notebook] returns, the notebook file was there
    and has been read as UTF-8 and as a notebook, its metadata name a
    kernel, the cells have run, and the executed notebook has been
    encoded as UTF-8.  The preprocessor has been called once, with the
    resolved kernel, the given timeout, an immediate shutdown and a
    startup timeout of 300, in the folder of the notebook; the files are
    those the cells have left, with the executed notebook written at
    the temporary path. *)
Theorem execute_notebook_success `{Libraries}
    (self : Report) (version timeout : Z) (w w' : world) :
  let temp := PurePath.to_string (temporary_notebook self) in
  execute_notebook self version timeout w = (inr tt, w') ->
  exists b text nb required executed fs encoded,
    files w !! notebook_path self = Some b
    /\ text_mode_read utf8_codec b = inr text
    /\ nbformat_reads text version = inr nb
    /\ kernelspec_name nb = inr required
    /\ preprocess (mkEP timeout (kernel find_kernel_specs required) "immediate" 300)
                  (notebook_folder self) nb (files w) = (inr executed, fs)
    /\ encode utf8_codec (nbformat_writes executed) = inr encoded
    /\ w' = mkWorld (<[temp := encoded]> fs)
                    (calls w ++ [Preprocess
                                   (mkEP timeout (kernel find_kernel_specs required)
                                         "immediate" 300)
                                   (notebook_folder self)]).
Proof.
  intros temp. rewrite execute_notebook_run. fold temp. cbv zeta.
  destruct (files w !! notebook_path self) as [b|] eqn:Hfile; [|discriminate].
  destruct (text_mode_read utf8_codec b) as [e|text] eqn:Htext; [discriminate|].
  destruct (nbformat_reads text version) as [e|nb] eqn:Hnb; [discriminate|].
  destruct (kernelspec_name nb) as [e|required] eqn:Hreq; [discriminate|].
  destruct (preprocess _ (notebook_folder self) nb (files w))
    as [[e|executed] fs] eqn:Hrun; [discriminate|].
  unfold write_text. cbn [files calls].
  destruct (encode utf8_codec (nbformat_writes executed)) as [e|encoded] eqn:Henc;
    [discriminate|].
  intros Heq. injection Heq as <-.
  exists b, text, nb, required, executed, fs, encoded. repeat split; assumption.
Qed.

Lemma execute_notebook_success_witness :
  exists b text nb required executed fs encoded,
    files (Samples.world_with MoreSamples.writing_notebook) !! "/data/daily_summary.ipynb"
    = Some b
    /\ text_mode_read Samples.ascii_codec b = inr text
    /\ Samples.reads text 4 = inr nb
    /\ kernelspec_name nb = inr required
    /\ Samples.run
         (mkEP 3600 (kernel (find_kernel_specs (Libraries := Samples.libraries)) required)
               "immediate" 300)
         "/data" nb (files (Samples.world_with MoreSamples.writing_notebook))
       = (inr executed, fs)
    /\ encode Samples.ascii_codec (Samples.writes executed) = inr encoded
    /\ MoreSamples.written_world
       = mkWorld (<["/tmp/daily_summary.ipynb" := encoded]> fs)
                 [Preprocess
                    (mkEP 3600
                          (kernel (find_kernel_specs (Libraries := Samples.libraries))
                                  required)
                          "immediate" 300)
                    "/data"].
Proof.
  apply (execute_notebook_success (H := Samples.libraries) Samples.report 4 3600
           (Samples.world_with MoreSamples.writing_notebook)
           MoreSamples.written_world).
  reflexivity.
Defined.

(** X6. A notebook whose metadata have no [kernelspec], or a
    [kernelspec] without [name], makes [execute_notebook] raise
    [KeyError] for that key; no cell has been run and the world is as it
    was. *)
Theorem execute_notebook_without_kernelspec `{Libraries}
    (self : Report) (version timeout : Z) (w : world)
    (b : bytes) (text : string) (nb : NotebookNode) :
  files w !! notebook_path self = Some b ->
  text_mode_read utf8_codec b = inr text ->
  nbformat_reads text version = inr nb ->
  (kernelspec (nb_metadata nb) = None ->
   execute_notebook self version timeout w = (inl (KeyError "kernelspec"), w))
  /\ (forall ks, kernelspec (nb_metadata nb) = Some ks -> ks !! "name" = None ->
      execute_notebook self version timeout w = (inl (KeyError "name"), w)).
Proof.
  intros Hfile Htext Hnb. rewrite execute_notebook_run, Hfile, Htext, Hnb.
  unfold kernelspec_name. split.
  - intros Hks. rewrite Hks. reflexivity.
  - intros ks Hks Hname. rewrite Hks, Hname. reflexivity.
Qed.

Lemma execute_notebook_without_kernelspec_witness :
  execute_notebook (H := Samples.libraries) Samples.report 4 3600
                   (Samples.world_with MoreSamples.without_kernelspec)
  = (inl (KeyError "kernelspec"), Samples.world_with MoreSamples.without_kernelspec).
Proof.
  eapply (proj1 (execute_notebook_without_kernelspec (H := Samples.libraries)
                   Samples.report 4 3600
                   (Samples.world_with MoreSamples.without_kernelspec)
                   _ _ _ eq_refl eq_refl eq_refl)).
  reflexivity.
Defined.

(** X7. [execute_notebook] itself writes no file other than the
    temporary notebook, and removes none.  Whether it returns or raises,
    either the preprocessor has not been called and the files are as
    they were, or it has been called once, in the folder of the
    notebook, and every file other than the temporary notebook is as the
    cells have left it. *)
Theorem execute_notebook_frame `{Libraries}
    (self : Report) (version timeout : Z) (w : world) :
  let temp := PurePath.to_string (temporary_notebook self) in
  let w' := (execute_notebook self version timeout w).2 in
  (calls w' = calls w /\ files w' = files w)
  \/ (exists ep nb r fs,
        preprocess ep (notebook_folder self) nb (files w) = (r, fs)
        /\ calls w' = calls w ++ [Preprocess ep (notebook_folder self)]
        /\ forall path, path <> temp -> files w' !! path = fs !! path).
Proof.
  intros temp w'. subst w'. rewrite execute_notebook_run. fold temp. cbv zeta.
  destruct (files w !! notebook_path self) as [b|]; [|left; split; reflexivity].
  destruct (text_mode_read utf8_codec b) as [e|text]; [left; split; reflexivity|].
  destruct (nbformat_reads text version) as [e|nb]; [left; split; reflexivity|].
  destruct (kernelspec_name nb) as [e|required]; [left; split; reflexivity|].
  right.
  destruct (preprocess _ (notebook_folder self) nb (files w))
    as [[e|executed] fs] eqn:Hrun.
  { eexists _, nb, _, fs. split; [exact Hrun|]. split; reflexivity. }
  eexists _, nb, _, fs. split; [exact Hrun|].
  unfold write_text. cbn [files calls].
  destruct (encode utf8_codec (nbformat_writes executed)) as [e|encoded];
    cbn [snd files calls]; (split; [reflexivity|]);
    intros path Hpath; apply lookup_insert_ne; congruence.
Qed.

(** ** Exporting the notebook *)

(** X8. An empty template path is no template path: the exporter is
    then the default one, with no loader, no template file and nothing
    excluded.  With a template path [dir/base] the template file is
    [base], there is one loader, and the input, the input prompts and
    the output prompts are excluded. *)
Theorem configure_exporter_template (dir base : string) :
  configure_exporter (Some "") = configure_exporter None
  /\ configure_exporter None = mkExporter [] None false false false
  /\ (PyStr.has_char PyStr.slash base = false ->
      PurePath.keep_part base = true ->
      let exporter := configure_exporter (Some (dir +:+ String PyStr.slash base)) in
      template_file exporter = Some base
      /\ length (extra_loaders exporter) = 1
      /\ exclude_input exporter = true
      /\ exclude_input_prompt exporter = true
      /\ exclude_output_prompt exporter = true).
Proof.
  split; [reflexivity|]. split; [reflexivity|].
  intros Hbase Hkeep exporter. subst exporter. unfold configure_exporter.
  assert (Htruthy : PyStr.truthy (dir +:+ String PyStr.slash base) = true).
  { destruct dir; reflexivity. }
  rewrite Htruthy. cbn [template_file extra_loaders exclude_input
                        exclude_input_prompt exclude_output_prompt length].
  rewrite (PurePathFacts.name_of_string _ _ Hbase Hkeep). repeat split.
Qed.

(** X9. Without a temporary notebook [notebook_to_report] raises
    [FileNotFoundError] for its path in an unchanged world.  When the
    exporter raises, [notebook_to_report] raises that very exception
    after one call of the exporter: no file has been written, and the
    temporary notebook has not been removed. *)
Theorem notebook_to_report_failure_keeps_notebook `{Libraries}
    (self : Report) (version : Z) (template_path : option string) (w : world) :
  let temp := PurePath.to_string (temporary_notebook self) in
  let exporter := configure_exporter template_path in
  (files w !! temp = None ->
   notebook_to_report self version template_path w
   = (inl (FileNotFoundError temp), w))
  /\ (forall b text nb e,
        files w !! temp = Some b ->
        text_mode_read locale_codec b = inr text ->
        nbformat_reads text version = inr nb ->
        from_notebook_node exporter nb (resolve_title self nb) = inl e ->
        notebook_to_report self version template_path w
        = (inl e,
           mkWorld (files w)
                   (calls w ++ [FromNotebookNode exporter (resolve_title self nb)]))).
Proof.
  intros temp exporter. split.
  - intros Hfile. rewrite notebook_to_report_run. fold temp. rewrite Hfile. reflexivity.
  - intros b text nb e Hfile Htext Hnb Hfail.
    rewrite notebook_to_report_run. fold temp exporter. cbv zeta.
    rewrite Hfile, Htext, Hnb, Hfail. reflexivity.
Qed.

(** X10. When the body the exporter returns cannot be encoded in the
    encoding of the locale, [notebook_to_report] raises the error of the
    encoder: the report file has been opened for writing and is left
    empty, and the temporary notebook, when it is another file, is still
    there. *)
Theorem notebook_to_report_unencodable_body `{Libraries}
    (self : Report) (version : Z) (template_path : option string) (w : world)
    (b : bytes) (text body : string) (nb : NotebookNode) (e : exn) :
  let temp := PurePath.to_string (temporary_notebook self) in
  let target := PurePath.to_string (report_path self) in
  let exporter := configure_exporter template_path in
  files w !! temp = Some b ->
  text_mode_read locale_codec b = inr text ->
  nbformat_reads text version = inr nb ->
  from_notebook_node exporter nb (resolve_title self nb) = inr body ->
  encode locale_codec body = inl e ->
  exists w',
    notebook_to_report self version template_path w = (inl e, w')
    /\ files w' !! target = Some []
    /\ (target <> temp -> files w' !! temp = Some b).
Proof.
  intros temp target exporter Hfile Htext Hnb Hbody Henc.
  rewrite notebook_to_report_run. fold temp target exporter. cbv zeta.
  rewrite Hfile, Htext, Hnb, Hbody, Henc. eexists. split; [reflexivity|].
  cbn [files]. split.
  - apply lookup_insert_eq.
  - intros Hne. rewrite lookup_insert_ne by exact Hne. exact Hfile.
Qed.

Lemma notebook_to_report_unencodable_body_witness :
  exists w',
    notebook_to_report (H := MoreSamples.ascii_host) Samples.report 4 None
                       Samples.executed_world
    = (inl (UnicodeError "ascii"), w')
    /\ files w' !! "/reports/daily_summary.html" = Some []
    /\ is_Some (files w' !! "/tmp/daily_summary.ipynb").
Proof.
  destruct (notebook_to_report_unencodable_body (H := MoreSamples.ascii_host)
              Samples.report 4 None Samples.executed_world
              _ _ _ _ (UnicodeError "ascii") eq_refl eq_refl eq_refl eq_refl eq_refl)
    as (w' & Hrun & Hreport & Htemp).
  exists w'. split; [exact Hrun|]. split; [exact Hreport|].
  eexists. apply Htemp. discriminate.
Defined.

(** X11. After [notebook_to_report] has returned, a report file that
    is there holds the body the exporter has returned for the notebook
    read and the title resolved, encoded in the encoding of the locale.
    When the report path is the path of the temporary notebook, the
    report has been removed with the temporary notebook, and there is no
    file there. *)
Theorem notebook_to_report_at_report_path `{Libraries}
    (self : Report) (version : Z) (template_path : option string) (w w' : world) :
  let temp := PurePath.to_string (temporary_notebook self) in
  let target := PurePath.to_string (report_path self) in
  let exporter := configure_exporter template_path in
  notebook_to_report self version template_path w = (inr tt, w') ->
  (target = temp -> files w' !! target = None)
  /\ (forall found, files w' !! target = Some found ->
        exists b text nb body,
          files w !! temp = Some b
          /\ text_mode_read locale_codec b = inr text
          /\ nbformat_reads text version = inr nb
          /\ from_notebook_node exporter nb (resolve_title self nb) = inr body
          /\ encode locale_codec body = inr found).
Proof.
  intros temp target exporter. rewrite notebook_to_report_run.
  fold temp target exporter. cbv zeta.
  destruct (files w !! temp) as [b|] eqn:Hfile; [|discriminate].
  destruct (text_mode_read locale_codec b) as [e|text] eqn:Htext; [discriminate|].
  destruct (nbformat_reads text version) as [e|nb] eqn:Hnb; [discriminate|].
  destruct (from_notebook_node exporter nb (resolve_title self nb))
    as [e|body] eqn:Hbody; [discriminate|].
  destruct (encode locale_codec body) as [e|encoded] eqn:Henc; [discriminate|].
  intros Heq. injection Heq as <-. cbn [files]. split.
  - intros ->. apply lookup_delete_eq.
  - intros found Hfound. exists b, text, nb, body.
    repeat split; try assumption.
    destruct (decide (target = temp)) as [Hsame|Hne].
    + rewrite Hsame, lookup_delete_eq in Hfound. discriminate.
    + rewrite lookup_delete_ne, lookup_insert_eq in Hfound by congruence.
      congruence.
Qed.

Lemma notebook_to_report_at_report_path_witness :
  files (notebook_to_report (H := Samples.libraries) MoreSamples.notes 4 None
                            MoreSamples.notes_world).2
    !! "/tmp/notes" = None
  /\ (forall found,
        files Samples.exported_world !! "/reports/daily_summary.html" = Some found ->
        exists b text nb body,
          files Samples.executed_world !! "/tmp/daily_summary.ipynb" = Some b
          /\ text_mode_read Samples.ascii_codec b = inr text
          /\ Samples.reads text 4 = inr nb
          /\ Samples.render (mkExporter [] None false false false) nb "daily summary"
             = inr body
          /\ encode Samples.ascii_codec body = inr found).
Proof.
  split.
  - apply (proj1 (notebook_to_report_at_report_path (H := Samples.libraries)
                    MoreSamples.notes 4 None MoreSamples.notes_world
                    (notebook_to_report (H := Samples.libraries) MoreSamples.notes 4 None
                                        MoreSamples.notes_world).2
                    eq_refl)).
    reflexivity.
  - intros found Hfound.
    destruct (proj2 (notebook_to_report_at_report_path (H := Samples.libraries)
                       Samples.report 4 None Samples.executed_world
                       Samples.exported_world eq_refl) found Hfound)
      as (b & text & nb & body & Hb & Htext & Hnb & Hbody & Henc).
    exists b, text, nb, body. repeat split; try assumption.
    vm_compute in Hb. injection Hb as <-.
    vm_compute in Htext. injection Htext as <-.
    vm_compute in Hnb. injection Hnb as <-. exact Hbody.
Defined.

(** X12. Whether [notebook_to_report] returns or raises, every file
    other than the temporary notebook and the report is as it was, and
    the exporter configured for the template path has been called once
    or not at all. *)
Theorem notebook_to_report_frame `{Libraries}
    (self : Report) (version : Z) (template_path : option string) (w : world) :
  let w' := (notebook_to_report self version template_path w).2 in
  (forall path,
     path <> PurePath.to_string (temporary_notebook self) ->
     path <> PurePath.to_string (report_path self) ->
     files w' !! path = files w !! path)
  /\ (calls w' = calls w
      \/ exists title,
           calls w' = calls w
                      ++ [FromNotebookNode (configure_exporter template_path) title]).
Proof.
  intros w'. subst w'. rewrite notebook_to_report_run. cbv zeta.
  destruct (files w !! _) as [b|];
    [|split; [intros; reflexivity|left; reflexivity]].
  destruct (text_mode_read locale_codec b) as [e|text];
    [split; [intros; reflexivity|left; reflexivity]|].
  destruct (nbformat_reads text version) as [e|nb];
    [split; [intros; reflexivity|left; reflexivity]|].
  destruct (from_notebook_node _ nb _) as [e|body];
    [split; [intros; reflexivity|right; eexists; reflexivity]|].
  destruct (encode locale_codec body) as [e|encoded];
    cbn [snd files calls]; (split; [|right; eexists; reflexivity]);
    intros path Htemp Htarget.
  - apply lookup_insert_ne. congruence.
  - rewrite lookup_delete_ne by congruence. apply lookup_insert_ne. congruence.
Qed.



(** X22. For a notebook [dir/stem.ipynb] whose stem holds neither a
    slash nor [.ipynb], once the executed notebook has been read
    [notebook_to_report] calls the exporter once, whatever comes of the
    call: with the title of the metadata when they have one, and with
    the stem, its underscores turned into spaces, when they have none. *)
Theorem title_given_to_exporter `{Libraries}
    (dir stem report_folder : string) (version : Z) (template_path : option string)
    (w : world) (b : bytes) (text : string) (nb : NotebookNode) :
  let self :=
    Report_init (dir +:+ String PyStr.slash (stem +:+ ".ipynb")) report_folder in
  PyStr.has_char PyStr.slash stem = false ->
  PyStr.contains ".ipynb" stem = false ->
  files w !! PurePath.to_string (temporary_notebook self) = Some b ->
  text_mode_read locale_codec b = inr text ->
  nbformat_reads text version = inr nb ->
  calls (notebook_to_report self version template_path w).2
  = calls w ++ [FromNotebookNode
                  (configure_exporter template_path)
                  (default (PyStr.underscores_to_spaces stem)
                           (meta_title (nb_metadata nb)))].
Proof.
  intros self Hslash Hstem Hfile Htext Hnb.
  assert (Htitle : resolve_title self nb
                   = default (PyStr.underscores_to_spaces stem)
                             (meta_title (nb_metadata nb))).
  { unfold resolve_title. destruct (meta_title (nb_metadata nb)); [reflexivity|].
    apply PurePathFacts.title_of_notebook; assumption. }
  rewrite notebook_to_report_run. cbv zeta. rewrite Hfile, Htext, Hnb, Htitle.
  destruct (from_notebook_node _ nb _) as [e|body]; [reflexivity|].
  destruct (encode locale_codec body) as [e|encoded]; reflexivity.
Qed.

Lemma title_given_to_exporter_witness :
  calls (notebook_to_report (H := Samples.libraries) Samples.report 4 None
                            Samples.executed_world).2
  = calls Samples.executed_world
    ++ [FromNotebookNode (mkExporter [] None false false false) "daily summary"].
Proof.
  refine (title_given_to_exporter (H := Samples.libraries)
            "/data" "daily_summary" "/reports" 4 None Samples.executed_world
            (list_byte_of_string Samples.daily_summary) Samples.daily_summary
            (mkNotebook (mkMetadata (Some {[ "name" := "conda-env" ]}) None) ["print(1)"])
            _ _ _ _ _);
    vm_compute; reflexivity.
Defined.

(** ** Cleaning the report *)

(** X14. [clean_html] changes no file other than the report and calls
    neither the preprocessor nor the exporter.  Without a report file it
    raises [FileNotFoundError] for the report path, and with a report
    that cannot be decoded in the encoding of the locale it raises the
    error of the decoder, both in an unchanged world. *)
Theorem clean_html_frame `{Libraries} (self : Report) (w : world) :
  let target := PurePath.to_string (report_path self) in
  let w' := (clean_html self w).2 in
  (forall path, path <> target -> files w' !! path = files w !! path)
  /\ calls w' = calls w
  /\ (files w !! target = None ->
      clean_html self w = (inl (FileNotFoundError target), w))
  /\ (forall b e, files w !! target = Some b -> decode locale_codec b = inl e ->
      clean_html self w = (inl e, w)).
Proof.
  intros target w'. subst w'. rewrite clean_html_run. fold target.
  unfold read_text, write_text, text_mode_read.
  destruct (files w !! target) as [b|]; cycle 1.
  { repeat split; try reflexivity. intros b e Hb. discriminate. }
  destruct (decode locale_codec b) as [e|bare_html] eqn:Hdec.
  { repeat split; try reflexivity; [discriminate|].
    intros b' e' Hb He. congruence. }
  assert (Hlast : forall (r : exn + unit) (w1 : world) b' e',
            Some b = Some b' -> decode locale_codec b' = inl e' -> (r, w1) = (inl e', w)).
  { intros r w1 b' e' Hb He. congruence. }
  destruct (encode utf8_codec (clean_text (PyStr.universal_newlines bare_html)))
    as [e|encoded];
    cbn [snd files calls]; (split; [|split; [reflexivity|split]]);
    try discriminate; try apply Hlast;
    intros path Hpath; apply lookup_insert_ne; congruence.
Qed.

(** X15. When the report path is the path of the temporary notebook,
    [clean_html] after a [notebook_to_report] that has returned raises
    [FileNotFoundError] for the report path. *)
Theorem clean_html_after_lost_report `{Libraries}
    (self : Report) (version : Z) (template_path : option string) (w w' : world) :
  PurePath.to_string (report_path self)
  = PurePath.to_string (temporary_notebook self) ->
  notebook_to_report self version template_path w = (inr tt, w') ->
  clean_html self w'
  = (inl (FileNotFoundError (PurePath.to_string (report_path self))), w').
Proof.
  intros Hsame. rewrite notebook_to_report_run. cbv zeta. rewrite <- Hsame.
  destruct (files w !! _) as [b|]; [|discriminate].
  destruct (text_mode_read locale_codec b) as [e|text]; [discriminate|].
  destruct (nbformat_reads text version) as [e|nb]; [discriminate|].
  destruct (from_notebook_node _ nb _) as [e|body]; [discriminate|].
  destruct (encode locale_codec body) as [e|encoded]; [discriminate|].
  intros Heq. injection Heq as <-.
  rewrite clean_html_run. unfold read_text. cbn [files].
  rewrite lookup_delete_eq. reflexivity.
Qed.

Lemma clean_html_after_lost_report_witness :
  clean_html (H := Samples.libraries) MoreSamples.notes
    (notebook_to_report (H := Samples.libraries) MoreSamples.notes 4 None
                        MoreSamples.notes_world).2
  = (inl (FileNotFoundError "/tmp/notes"),
     (notebook_to_report (H := Samples.libraries) MoreSamples.notes 4 None
                         MoreSamples.notes_world).2).
Proof.
  apply (clean_html_after_lost_report (H := Samples.libraries)
           MoreSamples.notes 4 None MoreSamples.notes_world); reflexivity.
Defined.

(** X16. The passes of [clean_html] over the whole tree amount to a
    decision tag by tag: the nodes of the top level are cleaned one
    after the other, a [div] with a class to remove goes with all that
    is in it, a [div] with a class to replace gives its place to its
    cleaned children, and any other tag stays around its cleaned
    children, a [table] without [id] having lost its attributes. *)
Theorem clean_tree_node_by_node (t1 t2 : Soup.soup Soup.dict) :
  Soup.clean_tree (t1 ++ t2) = Soup.clean_tree t1 ++ Soup.clean_tree t2
  /\ (forall name attrs contents,
        Soup.clean_tree [Soup.Tag name attrs contents]
        = if OnePass.selected_by Soup.classes_to_remove name attrs then []
          else if OnePass.selected_by Soup.classes_to_replace name attrs
               then Soup.clean_tree contents
               else [Soup.Tag name (Soup.strip_attrs (name, attrs)).2
                              (Soup.clean_tree contents)]).
Proof.
  split.
  - rewrite !OnePassFacts.clean_tree_one_pass. apply flat_map_app.
  - intros name attrs contents. rewrite !OnePassFacts.clean_tree_one_pass.
    cbn [flat_map OnePass.clean_node]. rewrite app_nil_r. reflexivity.
Qed.

(** X17. The order in which the deletion loop takes the class names to
    remove does not change the tree it leaves. *)
Theorem decompose_order_independent (order : list string) (t : Soup.soup Soup.dict) :
  order ≡ₚ Soup.classes_to_remove ->
  Soup.decompose_classes order t = Soup.decompose_classes Soup.classes_to_remove t.
Proof.
  intros Hp. rewrite !OnePassFacts.decompose_classes_any.
  apply flat_map_ext. intros n. apply OnePassFacts.decompose_any_Permutation, Hp.
Qed.

Lemma decompose_order_independent_witness :
  Soup.decompose_classes ["prompt"; "output_text"] Samples.code_cell
  = Soup.decompose_classes Soup.classes_to_remove Samples.code_cell.
Proof.
  apply (decompose_order_independent ["prompt"; "output_text"] Samples.code_cell).
  apply perm_swap.
Defined.

(** X18. Unwrapping and the table pass lose no text: the strings of
    the cleaned tree are, in document order, those the deletion passes
    have left, some of the strings of the tree read; all of them when no
    [div] has a class to remove. *)
Theorem clean_tree_keeps_text (t : Soup.soup Soup.dict) :
  OnePass.strings (Soup.clean_tree t)
  = OnePass.strings (Soup.decompose_classes Soup.classes_to_remove t)
  /\ OnePass.strings (Soup.clean_tree t) `sublist_of` OnePass.strings t
  /\ (Forall (fun c => Forall (Soup.unselected c) (Soup.all_tags t)) Soup.classes_to_remove ->
      OnePass.strings (Soup.clean_tree t) = OnePass.strings t).
Proof.
  assert (Heq : OnePass.strings (Soup.clean_tree t)
                = OnePass.strings (Soup.decompose_classes Soup.classes_to_remove t)).
  { unfold Soup.clean_tree.
    rewrite OnePassFacts.strip_tables_strings, OnePassFacts.unwrap_classes_strings.
    reflexivity. }
  split; [exact Heq|]. split.
  - rewrite Heq. apply OnePassFacts.decompose_classes_strings.
  - intros Hnone. rewrite Heq, (SoupFacts.decompose_classes_id _ _ Hnone). reflexivity.
Qed.

(** X19. The unwrap passes, for any class names, keep every tag that
    is not a [div], with its attributes and in document order; the tags
    other than [div] of the cleaned tree are those the deletion passes
    have left, the tables without [id] having lost their attributes. *)
Theorem clean_tree_keeps_other_tags (t : Soup.soup Soup.dict) :
  OnePass.other_tags (Soup.clean_tree t)
  = map Soup.strip_attrs
        (OnePass.other_tags (Soup.decompose_classes Soup.classes_to_remove t))
  /\ (forall cs, OnePass.other_tags (Soup.unwrap_classes cs t) = OnePass.other_tags t).
Proof.
  split.
  - unfold Soup.clean_tree.
    rewrite OnePassFacts.other_tags_strip, OnePassFacts.unwrap_classes_other_tags.
    reflexivity.
  - intros cs. apply OnePassFacts.unwrap_classes_other_tags.
Qed.

(** X20. Cleaning a cleaned tree, its tables without attributes taken
    as tables with no attribute at all, gives the cleaned tree again. *)
Theorem clean_tree_again (t : Soup.soup Soup.dict) :
  Soup.clean_tree (map Soup.erase (Soup.clean_tree t)) = Soup.clean_tree t.
Proof.
  rewrite !OnePassFacts.clean_tree_one_pass.
  rewrite map_flat_map, flat_map_flat_map.
  apply flat_map_ext. intros n. apply OnePassFacts.clean_node_again.
Qed.

(** X21. Dropping the empty lines of a text whose empty lines have
    been dropped changes nothing, and a text none of whose lines is
    empty is given back as it is. *)
Theorem drop_blank_lines_settles (html : string) :
  drop_blank_lines (drop_blank_lines html) = drop_blank_lines html
  /\ (Forall (fun line => PyStr.truthy line = true) (PyStr.split PyStr.nl html) ->
      drop_blank_lines html = html).
Proof.
  split; [apply PyStrFacts.drop_blank_lines_idempotent|].
  intros Hall. unfold drop_blank_lines.
  rewrite (LinesFacts.filter_all_true _ _ Hall). apply LinesFacts.join_split.
Qed.
